(** * SPDY frame codec, stream and connection set-up: a shallow embedding

    The development follows three Go sources of the repository:
    - [spdy.go]: the frame codec ([Parse] and [Bytes] of every frame type),
    - the stream ([stream.Write], [stream.WriteHeader], [stream.receiveFrame],
      [stream.run], [queue]) and [NewClientConn],
    - [spdy3/conn.go]: [NewConn].

    Go values are modelled as follows.  A byte and every fixed-width unsigned
    integer is a [Z], with the wrap-around of each conversion written out.
    A byte slice of the codec is a [slice]: its visible elements together with
    the elements of the backing array that lie between its length and its
    capacity, because Go bounds a slice expression [s[lo:hi]] by the capacity
    and an index expression [s[i]] by the length.  A function that can panic
    returns a [result]; a Go [error] return value is an [option error]. *)

From Stdlib Require Import ZArith Lia.
From stdpp Require Import base numbers list strings gmap pretty.

Local Open Scope Z_scope.

(** ** Errors and panics *)

(** The error values of the package: the two error types of [spdy.go], the
    cancellation error of the stream, and the values of [errors.New]. *)
Inductive error : Type :=
| IncorrectDataLength (got expected : Z)
| InvalidField (field : string) (got expected : Z)
| ErrCancelled
| ErrorsNew (msg : string).

Inductive panic : Type :=
| IndexOutOfRange (index length : Z)
| SliceBoundsOutOfRange (lo hi capacity : Z)
| NilPointerDereference
| PanicError (e : error)          (* [panic(err)] *)
| ExplicitPanic (msg : string).   (* [panic("...")] *)

Inductive result (A : Type) : Type :=
| Ok (a : A)
| Panic (p : panic).
Arguments Ok {A} a.
Arguments Panic {A} p.

#[global] Instance result_ret : MRet result := fun A a => Ok a.
#[global] Instance result_bind : MBind result := fun A B f m =>
  match m with
  | Ok a => f a
  | Panic p => Panic p
  end.

(** [a || b] of Go: [b] is evaluated only when [a] is false. *)
Definition orM (a b : result bool) : result bool :=
  x ← a; if (x : bool) then mret true else b.

(** ** Integers and slices *)

Definition byte := Z.

(** Conversions to a fixed-width unsigned integer keep the low bits. *)
Definition to_byte (x : Z) : byte := x `mod` 256.
Definition to_uint16 (x : Z) : Z := x `mod` 2 ^ 16.
Definition to_uint32 (x : Z) : Z := x `mod` 2 ^ 32.
(** Signed 64-bit arithmetic wraps around in two's complement. *)
Definition to_int64 (x : Z) : Z := (x + 2 ^ 63) `mod` 2 ^ 64 - 2 ^ 63.

Record slice : Type := Slice {
  elems : list byte;   (* s[0], ..., s[len(s)-1] *)
  spare : list byte    (* the backing array from len(s) up to cap(s) *)
}.

Definition len (s : slice) : Z := Z.of_nat (length (elems s)).
Definition cap (s : slice) : Z := Z.of_nat (length (elems s) + length (spare s)).
Definition backing (s : slice) : list byte := elems s ++ spare s.

(** [s[i]] *)
Definition index (s : slice) (i : Z) : result byte :=
  if (0 <=? i) && (i <? len s) then
    match elems s !! Z.to_nat i with
    | Some b => Ok b
    | None => Panic (IndexOutOfRange i (len s))
    end
  else Panic (IndexOutOfRange i (len s)).

(** [s[i] = v] *)
Definition store (s : slice) (i : Z) (v : byte) : result slice :=
  if (0 <=? i) && (i <? len s) then
    Ok {| elems := <[Z.to_nat i := v]> (elems s); spare := spare s |}
  else Panic (IndexOutOfRange i (len s)).

(** [s[lo:hi]] *)
Definition reslice (s : slice) (lo hi : Z) : result slice :=
  if (0 <=? lo) && (lo <=? hi) && (hi <=? cap s) then
    Ok {| elems := take (Z.to_nat (hi - lo)) (drop (Z.to_nat lo) (backing s));
          spare := drop (Z.to_nat hi) (backing s) |}
  else Panic (SliceBoundsOutOfRange lo hi (cap s)).

(** [s[lo:]], that is [s[lo:len(s)]] *)
Definition reslice_from (s : slice) (lo : Z) : result slice :=
  reslice s lo (len s).

(** [make([]byte, n, c)] and [make([]byte, n)] *)
Definition make_cap (n c : Z) : slice :=
  {| elems := replicate (Z.to_nat n) 0; spare := replicate (Z.to_nat (c - n)) 0 |}.
Definition make (n : Z) : slice := make_cap n n.

(** [append(s, xs...)].  When the capacity suffices the elements are written
    over the spare part of the backing array; otherwise a new array is
    allocated, whose capacity Go leaves to the implementation: the model gives
    the new slice no spare capacity. *)
Definition append (s : slice) (xs : list byte) : slice :=
  {| elems := elems s ++ xs; spare := drop (length xs) (spare s) |}.

(** A slice literal, or any slice whose capacity is its length. *)
Definition of_list (l : list byte) : slice := {| elems := l; spare := [] |}.

(** [out[i], out[i+1], ... = v0, v1, ...], one indexed store after the other. *)
Fixpoint store_all (s : slice) (i : Z) (vs : list byte) : result slice :=
  match vs with
  | [] => Ok s
  | v :: vs' => s' ← store s i v; store_all s' (i + 1) vs'
  end.

(** ** [io.Writer]

    [Write(p)] takes the bytes of [p], changes the writer, and returns the
    number of bytes it took with an error. *)
Class io_Writer (W : Type) : Type :=
  writer_Write : W -> list byte -> W * (Z * option error).

(** A writer that takes everything, as [bytes.Buffer] does: it is the bytes
    written so far. *)
#[global] Instance buffer_Writer : io_Writer (list byte) :=
  fun written p => (written ++ p, (Z.of_nat (length p), None)).

(** A writer with room for [room] more bytes, which refuses a write that does
    not fit. *)
Record limited : Type := Limited { room : Z; taken : list byte }.

#[global] Instance limited_Writer : io_Writer limited :=
  fun w p =>
    if Z.of_nat (length p) <=? room w then
      ({| room := room w - Z.of_nat (length p); taken := taken w ++ p |},
       (Z.of_nat (length p), None))
    else (w, (0, Some (ErrorsNew "short write"))).

(** [_, err = writer.Write(p); return err] *)
Definition write_last {W : Type} `{!io_Writer W} (writer : W) (p : list byte)
  : result (W * option error) :=
  let '(writer, (_, err)) := writer_Write writer p in mret (writer, err).

(** [_, err := writer.Write(p); if err != nil { return err }], then [rest]. *)
Definition write_then {W : Type} `{!io_Writer W} (writer : W) (p : list byte)
  (rest : W -> result (W * option error)) : result (W * option error) :=
  let '(writer, (_, err)) := writer_Write writer p in
  match err with
  | Some e => mret (writer, Some e)
  | None => rest writer
  end.

(** ** [spdy.go]: helpers *)

Definition bytesToUint16 (b : slice) : result Z :=
  b0 ← index b 0; b1 ← index b 1;
  mret (to_uint32 (to_uint32 (Z.shiftl b0 8) + b1)).

Definition bytesToUint24 (b : slice) : result Z :=
  b0 ← index b 0; b1 ← index b 1; b2 ← index b 2;
  mret (to_uint32 (to_uint32 (to_uint32 (Z.shiftl b0 16) + to_uint32 (Z.shiftl b1 8)) + b2)).

Definition bytesToUint32 (b : slice) : result Z :=
  b0 ← index b 0; b1 ← index b 1; b2 ← index b 2; b3 ← index b 3;
  mret (to_uint32 (to_uint32 (to_uint32 (to_uint32 (Z.shiftl b0 24)
          + to_uint32 (Z.shiftl b1 16)) + to_uint32 (Z.shiftl b2 8)) + b3)).

Definition bytesToUint31 (b : slice) : result Z :=
  b0 ← index b 0; b1 ← index b 1; b2 ← index b 2; b3 ← index b 3;
  mret (to_uint32 (to_uint32 (to_uint32 (to_uint32 (Z.shiftl (Z.land b0 0x7f) 24)
          + to_uint32 (Z.shiftl b1 16)) + to_uint32 (Z.shiftl b2 8)) + b3)).

(** [(uint16(data[0]&0x7f) << 8) + uint16(data[1])], the version of every
    control frame. *)
Definition parse_version (data : slice) : result Z :=
  d0 ← index data 0; d1 ← index data 1;
  mret (to_uint16 (to_uint16 (Z.shiftl (Z.land d0 0x7f) 8) + d1)).

(** [8 + int(bytesToUint24(data[5:8]))] *)
Definition declared_size (data : slice) : result Z :=
  b ← reslice data 5 8; n ← bytesToUint24 b; mret (8 + n).

(** [int(bytesToUint16(data[2:4]))] *)
Definition uint16_2_4 (data : slice) : result Z :=
  b ← reslice data 2 4; bytesToUint16 b.

(** [data[2] != 0 || data[3] != t] *)
Definition type_differs (data : slice) (t : Z) : result bool :=
  orM (d2 ← index data 2; mret (negb (d2 =? 0)))
      (d3 ← index data 3; mret (negb (d3 =? t))).

(** A [Parse] method fills its receiver and returns an [error]: it takes the
    receiver's value and returns the new value with the error.  Every check
    that rejects the input comes before the first assignment to a field, so a
    rejected parse returns the receiver as it was. *)
Definition reject {F : Type} (frame : F) (e : error) : result (F * option error) :=
  mret (frame, Some e).

(** ** The header block of [spdy.go]: [Headers.Parse] and [Headers.Compressed]
    are the stubs of the source. *)
Module Headers.
Record header : Type := Header { name : string; value : string }.
Record t : Type := Make { headers : list header }.

(** [new(Headers)] *)
Definition new : t := {| headers := [] |}.

Definition Parse (h : t) (data : slice) : result (t * option error) :=
  mret (h, None).

(** The receiver is a pointer and may be nil: it is not dereferenced.  The
    nil slice returned has length 0. *)
Definition Compressed (h : option t) : result (slice * option error) :=
  mret (of_list [], None).
End Headers.

(** ** SYN_STREAM *)
Module SynStreamFrame.
Record t : Type := Make {
  Version : Z;        (* uint16 *)
  Flags : byte;
  StreamID : Z;       (* uint32 *)
  AssocStreamID : Z;  (* uint32 *)
  Priority : byte;
  Slot : byte;
  Headers : option Headers.t
}.

Definition Parse (frame : t) (data : slice) : result (t * option error) :=
  let length := len data in
  if length <? 22 then reject frame (IncorrectDataLength length 22) else
  size ← declared_size data;
  if negb (length =? size) then
    size' ← declared_size data; reject frame (IncorrectDataLength length size')
  else
  d0 ← index data 0;
  if Z.land d0 0x80 =? 0 then reject frame (InvalidField "Control bit" 0 1) else
  bad_type ← type_differs data 1;
  if (bad_type : bool) then
    ty ← uint16_2_4 data; reject frame (InvalidField "Type" ty 1)
  else
  unused ← orM (d8 ← index data 8; mret (negb (Z.shiftr d8 7 =? 0)))
               (d12 ← index data 12; mret (negb (Z.shiftr d12 7 =? 0)));
  if (unused : bool) then reject frame (InvalidField "Unused" 1 0) else
  d16 ← index data 16;
  if negb (Z.land d16 0x1f =? 0) then
    d16' ← index data 16; reject frame (InvalidField "Unused" (Z.land d16' 0x1f) 0)
  else
  version ← parse_version data;
  flags ← index data 4;
  streamID ← (b ← reslice data 8 12; bytesToUint31 b);
  assoc ← (b ← reslice data 12 16; bytesToUint31 b);
  d16 ← index data 16;
  slot ← index data 17;
  block ← reslice_from data 18;
  r ← Headers.Parse Headers.new block;
  match r with
  | (_, Some err) =>
      mret ({| Version := version; Flags := flags; StreamID := streamID;
               AssocStreamID := assoc; Priority := Z.shiftr d16 5; Slot := slot;
               Headers := Headers frame |}, Some err)
  | (headers, None) =>
      mret ({| Version := version; Flags := flags; StreamID := streamID;
               AssocStreamID := assoc; Priority := Z.shiftr d16 5; Slot := slot;
               Headers := Some headers |}, None)
  end.

Definition Bytes (frame : t) : result (slice * option error) :=
  r ← Headers.Compressed (Headers frame);
  match r with
  | (_, Some err) => mret (of_list [], Some err)
  | (headers, None) =>
      let length := 10 + len headers in
      let out := make_cap 18 (8 + length) in
      out ← store_all out 0
        [ Z.lor 0x80 (to_byte (Z.shiftr (Version frame) 8));
          to_byte (Version frame);
          0;
          1;
          Flags frame;
          to_byte (Z.shiftr length 16);
          to_byte (Z.shiftr length 8);
          to_byte length;
          Z.land (to_byte (Z.shiftr (StreamID frame) 24)) 0x7f;
          to_byte (Z.shiftr (StreamID frame) 16);
          to_byte (Z.shiftr (StreamID frame) 8);
          to_byte (StreamID frame);
          Z.land (to_byte (Z.shiftr (AssocStreamID frame) 24)) 0x7f;
          to_byte (Z.shiftr (AssocStreamID frame) 16);
          to_byte (Z.shiftr (AssocStreamID frame) 8);
          to_byte (AssocStreamID frame);
          to_byte (Z.shiftl (Z.land (Priority frame) 0x7) 5);
          Slot frame ];
      mret (append out (elems headers), None)
  end.

(** The source declares [err] a second time with [:=]; the model reads the
    assignment. *)
Definition WriteTo {W : Type} `{!io_Writer W} (frame : t) (writer : W)
  : result (W * option error) :=
  r ← Headers.Compressed (Headers frame);
  match r with
  | (_, Some err) => mret (writer, Some err)
  | (headers, None) =>
      let length := 10 + len headers in
      let out := make 18 in
      out ← store_all out 0
        [ Z.lor 0x80 (to_byte (Z.shiftr (Version frame) 8));
          to_byte (Version frame);
          0;
          1;
          Flags frame;
          to_byte (Z.shiftr length 16);
          to_byte (Z.shiftr length 8);
          to_byte length;
          Z.land (to_byte (Z.shiftr (StreamID frame) 24)) 0x7f;
          to_byte (Z.shiftr (StreamID frame) 16);
          to_byte (Z.shiftr (StreamID frame) 8);
          to_byte (StreamID frame);
          Z.land (to_byte (Z.shiftr (AssocStreamID frame) 24)) 0x7f;
          to_byte (Z.shiftr (AssocStreamID frame) 16);
          to_byte (Z.shiftr (AssocStreamID frame) 8);
          to_byte (AssocStreamID frame);
          to_byte (Z.shiftl (Z.land (Priority frame) 0x7) 5);
          Slot frame ];
      write_then writer (elems out) (fun writer =>
      write_last writer (elems headers))
  end.
End SynStreamFrame.

(** ** SYN_REPLY.  The type of the header block is a parameter of the record:
    [spdy.go] declares the field as [*Headers], the stream assigns its
    [Header] map to it. *)
Module SynReplyFrame.
Record t (H : Type) : Type := Make {
  Version : Z;    (* uint16 *)
  Flags : byte;
  StreamID : Z;   (* uint32 *)
  Headers : H
}.
Arguments Make {H}.
Arguments Version {H}.
Arguments Flags {H}.
Arguments StreamID {H}.
Arguments Headers {H}.

Definition Parse (frame : t (option Headers.t)) (data : slice)
  : result (t (option Headers.t) * option error) :=
  let length := len data in
  if length <? 12 then reject frame (IncorrectDataLength length 12) else
  d0 ← index data 0;
  if Z.land d0 0x80 =? 0 then reject frame (InvalidField "Control bit" 0 1) else
  bad_type ← type_differs data 2;
  if (bad_type : bool) then
    ty ← uint16_2_4 data; reject frame (InvalidField "Type" ty 2)
  else
  d8 ← index data 8;
  if negb (Z.shiftr d8 7 =? 0) then reject frame (InvalidField "Unused" 1 0) else
  version ← parse_version data;
  flags ← index data 4;
  streamID ← (b ← reslice data 8 12; bytesToUint31 b);
  block ← reslice_from data 12;
  r ← Headers.Parse Headers.new block;
  match r with
  | (_, Some err) =>
      mret ({| Version := version; Flags := flags; StreamID := streamID;
               Headers := Headers frame |}, Some err)
  | (headers, None) =>
      mret ({| Version := version; Flags := flags; StreamID := streamID;
               Headers := Some headers |}, None)
  end.

Definition Bytes (frame : t (option Headers.t)) : result (slice * option error) :=
  r ← Headers.Compressed (Headers frame);
  match r with
  | (_, Some err) => mret (of_list [], Some err)
  | (headers, None) =>
      let length := 4 + len headers in
      let out := make_cap 12 (8 + length) in
      out ← store_all out 0
        [ Z.lor 0x80 (to_byte (Z.shiftr (Version frame) 8));
          to_byte (Version frame);
          0;
          2;
          Flags frame;
          to_byte (Z.shiftr length 16);
          to_byte (Z.shiftr length 8);
          to_byte length;
          Z.land (to_byte (Z.shiftr (StreamID frame) 24)) 0x7f;
          to_byte (Z.shiftr (StreamID frame) 16);
          to_byte (Z.shiftr (StreamID frame) 8);
          to_byte (StreamID frame) ];
      mret (append out (elems headers), None)
  end.

(** The source returns [nil, err] when the compression fails and declares
    [err] a second time with [:=]; the model reads [return err] and the
    assignment. *)
Definition WriteTo {W : Type} `{!io_Writer W} (frame : t (option Headers.t)) (writer : W)
  : result (W * option error) :=
  r ← Headers.Compressed (Headers frame);
  match r with
  | (_, Some err) => mret (writer, Some err)
  | (headers, None) =>
      let length := 4 + len headers in
      let out := make 12 in
      out ← store_all out 0
        [ Z.lor 0x80 (to_byte (Z.shiftr (Version frame) 8));
          to_byte (Version frame);
          0;
          2;
          Flags frame;
          to_byte (Z.shiftr length 16);
          to_byte (Z.shiftr length 8);
          to_byte length;
          Z.land (to_byte (Z.shiftr (StreamID frame) 24)) 0x7f;
          to_byte (Z.shiftr (StreamID frame) 16);
          to_byte (Z.shiftr (StreamID frame) 8);
          to_byte (StreamID frame) ];
      write_then writer (elems out) (fun writer =>
      write_last writer (elems headers))
  end.
End SynReplyFrame.

(** ** RST_STREAM *)
Module RstStreamFrame.
Record t : Type := Make {
  Version : Z;     (* uint16 *)
  Flags : byte;
  StreamID : Z;    (* uint32 *)
  StatusCode : Z   (* uint32 *)
}.

Definition Parse (frame : t) (data : slice) : result (t * option error) :=
  let length := len data in
  if negb (length =? 8) then reject frame (IncorrectDataLength length 8) else
  d0 ← index data 0;
  if Z.land d0 0x80 =? 0 then reject frame (InvalidField "Control bit" 0 1) else
  bad_type ← type_differs data 3;
  if (bad_type : bool) then
    ty ← uint16_2_4 data; reject frame (InvalidField "Type" ty 3)
  else
  d8 ← index data 8;
  if negb (Z.shiftr d8 7 =? 0) then reject frame (InvalidField "Unused" 1 0) else
  n ← (b ← reslice data 5 8; bytesToUint24 b);
  if negb (n =? 8) then
    n' ← (b ← reslice data 5 8; bytesToUint24 b);
    reject frame (InvalidField "Length" n' 8)
  else
  version ← parse_version data;
  flags ← index data 4;
  streamID ← (b ← reslice data 8 12; bytesToUint31 b);
  status ← (b ← reslice data 12 16; bytesToUint32 b);
  mret ({| Version := version; Flags := flags; StreamID := streamID;
           StatusCode := status |}, None).

Definition Bytes (frame : t) : result (slice * option error) :=
  let out := make 8 in
  out ← store_all out 0
    [ Z.lor 0x80 (to_byte (Z.shiftr (Version frame) 8));
      to_byte (Version frame);
      0;
      3;
      Flags frame;
      0;
      0;
      8;
      Z.land (to_byte (Z.shiftr (StreamID frame) 24)) 0x7f;
      to_byte (Z.shiftr (StreamID frame) 16);
      to_byte (Z.shiftr (StreamID frame) 8);
      to_byte (StreamID frame);
      to_byte (Z.shiftr (StatusCode frame) 24);
      to_byte (Z.shiftr (StatusCode frame) 16);
      to_byte (Z.shiftr (StatusCode frame) 8);
      to_byte (StatusCode frame) ];
  mret (out, None).

Definition WriteTo {W : Type} `{!io_Writer W} (frame : t) (writer : W)
  : result (W * option error) :=
  r ← Bytes frame;
  match r with
  | (_, Some err) => mret (writer, Some err)
  | (bytes, None) => write_last writer (elems bytes)
  end.
End RstStreamFrame.

(** ** SETTINGS *)
Module Setting.
Record t : Type := Make {
  Flags : byte;
  ID : Z;      (* uint32 *)
  Value : Z    (* uint32 *)
}.

Definition Bytes (s : t) : slice :=
  of_list
    [ Flags s;
      to_byte (Z.shiftr (ID s) 16);
      to_byte (Z.shiftr (ID s) 8);
      to_byte (ID s);
      to_byte (Z.shiftr (Value s) 24);
      to_byte (Z.shiftr (Value s) 16);
      to_byte (Z.shiftr (Value s) 8);
      to_byte (Value s) ].
End Setting.

Module SettingsFrame.
Record t : Type := Make {
  Version : Z;    (* uint16 *)
  Flags : byte;
  Settings : list Setting.t
}.

(** The loop of [Parse]: [n] settings are still to be read, the next one at
    [offset]. *)
Fixpoint parse_entries (data : slice) (n : nat) (offset : Z) : result (list Setting.t) :=
  match n with
  | O => mret []
  | S n' =>
      flags ← index data offset;
      id ← (b ← reslice data (offset + 1) (offset + 4); bytesToUint24 b);
      value ← (b ← reslice data (offset + 4) (offset + 8); bytesToUint32 b);
      rest ← parse_entries data n' (offset + 8);
      mret ({| Setting.Flags := flags; Setting.ID := id; Setting.Value := value |} :: rest)
  end.

(** The source names an undeclared [size] in its first error; the model reads
    it as [length].  [numSettings] is read from [data[8:12]] before any check
    of the length. *)
Definition Parse (frame : t) (data : slice) : result (t * option error) :=
  let length := len data in
  numSettings ← (b ← reslice data 8 12; bytesToUint32 b);
  if length <? 12 then reject frame (IncorrectDataLength length 12) else
  size ← declared_size data;
  if negb (length =? size) then
    size' ← declared_size data; reject frame (IncorrectDataLength length size')
  else
  if length <? 12 + 8 * numSettings then
    reject frame (IncorrectDataLength length (12 + 8 * numSettings))
  else
  d0 ← index data 0;
  if Z.land d0 0x80 =? 0 then reject frame (InvalidField "Control bit" 0 1) else
  bad_type ← type_differs data 4;
  if (bad_type : bool) then
    d2 ← index data 2; d3 ← index data 3;
    reject frame (InvalidField "Type" (Z.shiftl d2 8 + d3) 4)
  else
  version ← parse_version data;
  flags ← index data 4;
  settings ← parse_entries data (Z.to_nat numSettings) 12;
  mret ({| Version := version; Flags := flags; Settings := settings |}, None).

(** The loop of [Bytes]: each setting is copied byte by byte to [out[offset+i]]. *)
Fixpoint store_entries (out : slice) (offset : Z) (settings : list Setting.t) : result slice :=
  match settings with
  | [] => mret out
  | setting :: rest =>
      out' ← store_all out offset (elems (Setting.Bytes setting));
      store_entries out' (offset + 8) rest
  end.

(** The source names the receiver [s] and its settings [s.Entries], and the
    count [num]; the model reads them as [frame], [frame.Settings] and
    [numSettings]. *)
Definition Bytes (frame : t) : result (slice * option error) :=
  let numSettings := to_uint32 (Z.of_nat (length (Settings frame))) in
  let length := to_uint32 (4 + to_uint32 (8 * numSettings)) in
  let out := make_cap 12 (to_uint32 (8 + length)) in
  out ← store_all out 0
    [ Z.lor 0x80 (to_byte (Z.shiftr (Version frame) 8));
      to_byte (Version frame);
      0;
      4;
      Flags frame;
      to_byte (Z.shiftr length 16);
      to_byte (Z.shiftr length 8);
      to_byte length;
      to_byte (Z.shiftr numSettings 24);
      to_byte (Z.shiftr numSettings 16);
      to_byte (Z.shiftr numSettings 8);
      to_byte numSettings ];
  out ← store_entries out 12 (Settings frame);
  mret (out, None).

Definition WriteTo {W : Type} `{!io_Writer W} (frame : t) (writer : W)
  : result (W * option error) :=
  r ← Bytes frame;
  match r with
  | (_, Some err) => mret (writer, Some err)
  | (bytes, None) => write_last writer (elems bytes)
  end.

(** [Add] returns the frame with the setting appended, and no error. *)
Definition Add (frame : t) (flags : byte) (id value : Z) : t * option error :=
  ({| Version := Version frame; Flags := Flags frame;
      Settings := Settings frame ++ [Setting.Make flags id value] |}, None).
End SettingsFrame.

(** ** PING *)
Module PingFrame.
Record t : Type := Make {
  Version : Z;   (* uint16 *)
  PingID : Z     (* uint32 *)
}.

Definition Parse (frame : t) (data : slice) : result (t * option error) :=
  let length := len data in
  if negb (length =? 12) then reject frame (IncorrectDataLength length 12) else
  d0 ← index data 0;
  if Z.land d0 0x80 =? 0 then reject frame (InvalidField "Control bit" 0 1) else
  bad_type ← type_differs data 6;
  if (bad_type : bool) then
    d2 ← index data 2; d3 ← index data 3;
    reject frame (InvalidField "Type" (Z.shiftl d2 8 + d3) 6)
  else
  d4 ← index data 4;
  if negb (d4 =? 0) then
    d4' ← index data 4; reject frame (InvalidField "Flags" d4' 0)
  else
  n ← (b ← reslice data 5 8; bytesToUint24 b);
  if negb (n =? 4) then
    n' ← (b ← reslice data 5 8; bytesToUint24 b);
    reject frame (InvalidField "Length" n' 4)
  else
  version ← parse_version data;
  pingID ← (b ← reslice data 8 12; bytesToUint32 b);
  mret ({| Version := version; PingID := pingID |}, None).

Definition Bytes (frame : t) : result (slice * option error) :=
  let out := make 12 in
  out ← store_all out 0
    [ Z.lor 0x80 (to_byte (Z.shiftr (Version frame) 8));
      to_byte (Version frame);
      0;
      6;
      0;
      0;
      0;
      4;
      to_byte (Z.shiftr (PingID frame) 24);
      to_byte (Z.shiftr (PingID frame) 16);
      to_byte (Z.shiftr (PingID frame) 8);
      to_byte (PingID frame) ];
  mret (out, None).

Definition WriteTo {W : Type} `{!io_Writer W} (frame : t) (writer : W)
  : result (W * option error) :=
  r ← Bytes frame;
  match r with
  | (_, Some err) => mret (writer, Some err)
  | (bytes, None) => write_last writer (elems bytes)
  end.
End PingFrame.

(** ** GOAWAY *)
Module GoawayFrame.
Record t : Type := Make {
  Version : Z;            (* uint16 *)
  LastGoodStreamID : Z;   (* uint32 *)
  StatusCode : Z          (* uint32 *)
}.

Definition Parse (frame : t) (data : slice) : result (t * option error) :=
  let length := len data in
  if negb (length =? 16) then reject frame (IncorrectDataLength length 16) else
  d0 ← index data 0;
  if Z.land d0 0x80 =? 0 then reject frame (InvalidField "Control bit" 0 1) else
  bad_type ← type_differs data 7;
  if (bad_type : bool) then
    ty ← uint16_2_4 data; reject frame (InvalidField "Type" ty 7)
  else
  d8 ← index data 8;
  if negb (Z.shiftr d8 7 =? 0) then reject frame (InvalidField "Unused" 1 0) else
  d4 ← index data 4;
  if negb (d4 =? 0) then
    d4' ← index data 4; reject frame (InvalidField "Flags" d4' 0)
  else
  n ← (b ← reslice data 5 8; bytesToUint24 b);
  if negb (n =? 8) then
    n' ← (b ← reslice data 5 8; bytesToUint24 b);
    reject frame (InvalidField "Length" n' 8)
  else
  version ← parse_version data;
  last ← (b ← reslice data 8 12; bytesToUint31 b);
  status ← (b ← reslice data 12 16; bytesToUint32 b);
  mret ({| Version := version; LastGoodStreamID := last; StatusCode := status |}, None).

Definition Bytes (frame : t) : result (slice * option error) :=
  let out := make 16 in
  out ← store_all out 0
    [ Z.lor 0x80 (to_byte (Z.shiftr (Version frame) 8));
      to_byte (Version frame);
      0;
      7;
      0;
      0;
      0;
      8;
      Z.land (to_byte (Z.shiftr (LastGoodStreamID frame) 24)) 0x7f;
      to_byte (Z.shiftr (LastGoodStreamID frame) 16);
      to_byte (Z.shiftr (LastGoodStreamID frame) 8);
      to_byte (LastGoodStreamID frame);
      to_byte (Z.shiftr (StatusCode frame) 24);
      to_byte (Z.shiftr (StatusCode frame) 16);
      to_byte (Z.shiftr (StatusCode frame) 8);
      to_byte (StatusCode frame) ];
  mret (out, None).

Definition WriteTo {W : Type} `{!io_Writer W} (frame : t) (writer : W)
  : result (W * option error) :=
  r ← Bytes frame;
  match r with
  | (_, Some err) => mret (writer, Some err)
  | (bytes, None) => write_last writer (elems bytes)
  end.
End GoawayFrame.

(** ** HEADERS.  The header block is a parameter, as for SYN_REPLY. *)
Module HeadersFrame.
Record t (H : Type) : Type := Make {
  Version : Z;    (* uint16 *)
  Flags : byte;
  StreamID : Z;   (* uint32 *)
  Headers : H
}.
Arguments Make {H}.
Arguments Version {H}.
Arguments Flags {H}.
Arguments StreamID {H}.
Arguments Headers {H}.

Definition Parse (frame : t (option Headers.t)) (data : slice)
  : result (t (option Headers.t) * option error) :=
  let length := len data in
  if length <? 12 then reject frame (IncorrectDataLength length 12) else
  size ← declared_size data;
  if negb (length =? size) then
    size' ← declared_size data; reject frame (IncorrectDataLength length size')
  else
  d0 ← index data 0;
  if Z.land d0 0x80 =? 0 then reject frame (InvalidField "Control bit" 0 1) else
  bad_type ← type_differs data 8;
  if (bad_type : bool) then
    ty ← uint16_2_4 data; reject frame (InvalidField "Type" ty 8)
  else
  d8 ← index data 8;
  if negb (Z.shiftr d8 7 =? 0) then reject frame (InvalidField "Unused" 1 0) else
  version ← parse_version data;
  flags ← index data 4;
  streamID ← (b ← reslice data 8 12; bytesToUint31 b);
  block ← reslice_from data 12;
  r ← Headers.Parse Headers.new block;
  match r with
  | (_, Some err) =>
      mret ({| Version := version; Flags := flags; StreamID := streamID;
               Headers := Headers frame |}, Some err)
  | (headers, None) =>
      mret ({| Version := version; Flags := flags; StreamID := streamID;
               Headers := Some headers |}, None)
  end.

Definition Bytes (frame : t (option Headers.t)) : result (slice * option error) :=
  r ← Headers.Compressed (Headers frame);
  match r with
  | (_, Some err) => mret (of_list [], Some err)
  | (headers, None) =>
      let length := 4 + len headers in
      let out := make_cap 12 (8 + length) in
      out ← store_all out 0
        [ Z.lor 0x80 (to_byte (Z.shiftr (Version frame) 8));
          to_byte (Version frame);
          0;
          8;
          Flags frame;
          to_byte (Z.shiftr length 16);
          to_byte (Z.shiftr length 8);
          to_byte length;
          Z.land (to_byte (Z.shiftr (StreamID frame) 24)) 0x7f;
          to_byte (Z.shiftr (StreamID frame) 16);
          to_byte (Z.shiftr (StreamID frame) 8);
          to_byte (StreamID frame) ];
      mret (append out (elems headers), None)
  end.

(** The type code stored here is 1.  The source declares [err] a second time
    with [:=]; the model reads the assignment. *)
Definition WriteTo {W : Type} `{!io_Writer W} (frame : t (option Headers.t)) (writer : W)
  : result (W * option error) :=
  r ← Headers.Compressed (Headers frame);
  match r with
  | (_, Some err) => mret (writer, Some err)
  | (headers, None) =>
      let length := 4 + len headers in
      let out := make 12 in
      out ← store_all out 0
        [ Z.lor 0x80 (to_byte (Z.shiftr (Version frame) 8));
          to_byte (Version frame);
          0;
          1;
          Flags frame;
          to_byte (Z.shiftr length 16);
          to_byte (Z.shiftr length 8);
          to_byte length;
          Z.land (to_byte (Z.shiftr (StreamID frame) 24)) 0x7f;
          to_byte (Z.shiftr (StreamID frame) 16);
          to_byte (Z.shiftr (StreamID frame) 8);
          to_byte (StreamID frame) ];
      write_then writer (elems out) (fun writer =>
      write_last writer (elems headers))
  end.
End HeadersFrame.

(** ** WINDOW_UPDATE *)
Module WindowUpdateFrame.
Record t : Type := Make {
  Version : Z;          (* uint16 *)
  StreamID : Z;         (* uint32 *)
  DeltaWindowSize : Z   (* uint32 *)
}.

Definition Parse (frame : t) (data : slice) : result (t * option error) :=
  let length := len data in
  if length <? 12 then reject frame (IncorrectDataLength length 12) else
  d0 ← index data 0;
  if Z.land d0 0x80 =? 0 then reject frame (InvalidField "Control bit" 0 1) else
  bad_type ← type_differs data 9;
  if (bad_type : bool) then
    ty ← uint16_2_4 data; reject frame (InvalidField "Type" ty 9)
  else
  d8 ← index data 8;
  d12 ← index data 12;
  if negb (Z.lor (Z.shiftr d8 7) (Z.shiftr d12 7) =? 0) then
    reject frame (InvalidField "Unused" 1 0)
  else
  n ← (b ← reslice data 5 8; bytesToUint24 b);
  if negb (n =? 8) then
    n' ← (b ← reslice data 5 8; bytesToUint24 b);
    reject frame (InvalidField "Length" n' 8)
  else
  version ← parse_version data;
  streamID ← (b ← reslice data 8 12; bytesToUint31 b);
  delta ← (b ← reslice data 12 16; bytesToUint32 b);
  mret ({| Version := version; StreamID := streamID;
           DeltaWindowSize := Z.land delta 0x7f |}, None).

(** The first of the two methods that the source declares as
    [WindowUpdateFrame.Bytes] (the second encodes a DATA frame, see
    [DataFrame.Bytes]).  It returns a slice only. *)
Definition Bytes (frame : t) : result slice :=
  let out := make 12 in
  store_all out 0
    [ Z.lor 0x80 (to_byte (Z.shiftr (Version frame) 8));
      to_byte (Version frame);
      0;
      8;
      0;
      0;
      0;
      8;
      Z.land (to_byte (Z.shiftr (StreamID frame) 24)) 0x7f;
      to_byte (Z.shiftr (StreamID frame) 16);
      to_byte (Z.shiftr (StreamID frame) 8);
      to_byte (StreamID frame);
      Z.land (to_byte (Z.shiftr (DeltaWindowSize frame) 24)) 0x7f;
      to_byte (Z.shiftr (DeltaWindowSize frame) 16);
      to_byte (Z.shiftr (DeltaWindowSize frame) 8);
      to_byte (DeltaWindowSize frame) ].

(** The first of the two [WriteTo] methods of the source; it takes an error
    from [Bytes], which returns none. *)
Definition WriteTo {W : Type} `{!io_Writer W} (frame : t) (writer : W)
  : result (W * option error) :=
  bytes ← Bytes frame;
  write_last writer (elems bytes).
End WindowUpdateFrame.

(** ** DATA *)
Module DataFrame.
Record t : Type := Make {
  StreamID : Z;      (* uint32 *)
  Flags : byte;
  Data : list byte   (* the contents of the slice *)
}.

(** [new(DataFrame)] *)
Definition new : t := {| StreamID := 0; Flags := 0; Data := [] |}.

(** The control-bit check compares [data[0]&0x80] with 1. *)
Definition Parse (frame : t) (data : slice) : result (t * option error) :=
  let length := len data in
  if length <? 8 then reject frame (IncorrectDataLength length 8) else
  n ← uint16_2_4 data;
  if length <? 8 + n then
    n' ← uint16_2_4 data; reject frame (IncorrectDataLength length (8 + n'))
  else
  d0 ← index data 0;
  if Z.land d0 0x80 =? 1 then reject frame (InvalidField "Control bit" 1 0) else
  streamID ← (b ← reslice data 0 4; bytesToUint31 b);
  flags ← index data 4;
  length ← uint16_2_4 data;
  payload ← reslice data 8 (8 + length);
  mret ({| StreamID := streamID; Flags := flags; Data := elems payload |}, None).

(** The encoder of DATA frames.  The source declares it with the receiver
    [*WindowUpdateFrame] (its second [Bytes] method), and reads the fields
    [Data] and [Flags] of a DATA frame. *)
Definition Bytes (frame : t) : result slice :=
  let length := Z.of_nat (List.length (Data frame)) in
  let out := make_cap 8 (8 + length) in
  out ← store_all out 0
    [ Z.land (to_byte (Z.shiftr (StreamID frame) 24)) 0x7f;
      to_byte (Z.shiftr (StreamID frame) 16);
      to_byte (Z.shiftr (StreamID frame) 8);
      to_byte (StreamID frame);
      Flags frame;
      to_byte (Z.shiftr length 16);
      to_byte (Z.shiftr length 8);
      to_byte length ];
  mret (append out (Data frame)).

(** The writer of DATA frames, declared in the source with the receiver
    [*WindowUpdateFrame] like [Bytes]. *)
Definition WriteTo {W : Type} `{!io_Writer W} (frame : t) (writer : W)
  : result (W * option error) :=
  let length := Z.of_nat (List.length (Data frame)) in
  let out := make 8 in
  out ← store_all out 0
    [ Z.land (to_byte (Z.shiftr (StreamID frame) 24)) 0x7f;
      to_byte (Z.shiftr (StreamID frame) 16);
      to_byte (Z.shiftr (StreamID frame) 8);
      to_byte (StreamID frame);
      Flags frame;
      to_byte (Z.shiftr length 16);
      to_byte (Z.shiftr length 8);
      to_byte length ];
  write_then writer (elems out) (fun writer =>
  write_last writer (Data frame)).
End DataFrame.

(** ** CREDENTIAL *)
Module CredentialFrame.
Record t : Type := Make {
  Version : Z;                      (* uint16 *)
  Slot : Z;                         (* uint16 *)
  Proof : list byte;                (* the contents of the slice *)
  Certificates : list (list byte)
}.

(** [int(bytesToUint32(data[offset:offset+4]))] *)
Definition uint32_at (data : slice) (offset : Z) : result Z :=
  b ← reslice data offset (offset + 4); bytesToUint32 b.

(** The first loop of [Parse] counts the certificates:
    [for offset < length { offset += int(bytesToUint32(data[offset:offset+4])) + 4; numCerts++ }].
    Every turn moves [offset] forward by four bytes at least, so the loop
    takes no more turns than there are bytes left; [turns] bounds them
    ([count_certs_turns] shows that the bound is never met). *)
Fixpoint count_certs (turns : nat) (data : slice) (length offset numCerts : Z) : result Z :=
  if offset <? length then
    match turns with
    | O => Panic (ExplicitPanic "count_certs: out of turns")
    | S turns' =>
        n ← uint32_at data offset;
        count_certs turns' data length (offset + (n + 4)) (numCerts + 1)
    end
  else mret numCerts.

(** The second loop of [Parse] walks the same offsets and slices the
    certificates out of [data].  It takes as many turns as the first loop, so
    the index [i] of [frame.Certificates[i] = ...] is below [numCerts]. *)
Fixpoint read_certs (turns : nat) (data : slice) (length offset : Z)
  : result (list (list byte)) :=
  if offset <? length then
    match turns with
    | O => Panic (ExplicitPanic "read_certs: out of turns")
    | S turns' =>
        n ← uint32_at data offset;
        cert ← reslice data (offset + 4) (offset + 4 + n);
        rest ← read_certs turns' data length (offset + (n + 4));
        mret (elems cert :: rest)
    end
  else mret [].

Definition Parse (frame : t) (data : slice) : result (t * option error) :=
  let length := len data in
  if length <? 14 then reject frame (IncorrectDataLength length 14) else
  size ← declared_size data;
  if negb (length =? size) then
    size' ← declared_size data; reject frame (IncorrectDataLength length size')
  else
  d0 ← index data 0;
  if Z.land d0 0x80 =? 0 then reject frame (InvalidField "Control bit" 0 1) else
  bad_type ← type_differs data 10;
  if (bad_type : bool) then
    ty ← uint16_2_4 data; reject frame (InvalidField "Type" ty 10)
  else
  d4 ← index data 4;
  if negb (d4 =? 0) then
    d4' ← index data 4; reject frame (InvalidField "Flags" d4' 0)
  else
  version ← parse_version data;
  slot ← (b ← reslice data 8 10; bytesToUint16 b);
  proofLen ← (b ← reslice data 10 14; bytesToUint32 b);
  proof ← (if 0 <? proofLen then
             b ← reslice data 14 (14 + proofLen); mret (elems b)
           else mret []);
  let turns := Z.to_nat length in
  numCerts ← count_certs turns data length (14 + proofLen) 0;
  certs ← read_certs turns data length (14 + proofLen);
  mret ({| Version := version; Slot := to_uint16 slot; Proof := proof;
           Certificates := certs |}, None).

Definition Bytes (frame : t) : result (slice * option error) :=
  let proofLength := Z.of_nat (List.length (Proof frame)) in
  let certsLength :=
    foldl (fun acc cert => acc + Z.of_nat (List.length cert)) 0 (Certificates frame) in
  let length := 6 + proofLength + certsLength in
  let out := make_cap 14 (8 + length) in
  out ← store_all out 0
    [ Z.lor 0x80 (to_byte (Z.shiftr (Version frame) 8));
      to_byte (Version frame);
      0;
      10;
      0;
      to_byte (Z.shiftr length 16);
      to_byte (Z.shiftr length 8);
      to_byte length;
      to_byte (Z.shiftr (Slot frame) 8);
      to_byte (Slot frame);
      to_byte (Z.shiftr proofLength 24);
      to_byte (Z.shiftr proofLength 16);
      to_byte (Z.shiftr proofLength 8);
      to_byte proofLength ];
  let out := append out (Proof frame) in
  let out := foldl (fun out cert => append out cert) out (Certificates frame) in
  mret (out, None).

(** The loop of [WriteTo] over the certificates, which stops at the first
    error. *)
Fixpoint write_certs {W : Type} `{!io_Writer W} (writer : W) (certs : list (list byte))
  : result (W * option error) :=
  match certs with
  | [] => mret (writer, None)
  | cert :: rest => write_then writer cert (fun writer => write_certs writer rest)
  end.

(** The source assigns the two results of [writer.Write(cert)] to [err]; the
    model reads the error. *)
Definition WriteTo {W : Type} `{!io_Writer W} (frame : t) (writer : W)
  : result (W * option error) :=
  let proofLength := Z.of_nat (List.length (Proof frame)) in
  let certsLength :=
    foldl (fun acc cert => acc + Z.of_nat (List.length cert)) 0 (Certificates frame) in
  let length := 6 + proofLength + certsLength in
  let out := make_cap 14 (8 + length) in
  out ← store_all out 0
    [ Z.lor 0x80 (to_byte (Z.shiftr (Version frame) 8));
      to_byte (Version frame);
      0;
      10;
      0;
      to_byte (Z.shiftr length 16);
      to_byte (Z.shiftr length 8);
      to_byte length;
      to_byte (Z.shiftr (Slot frame) 8);
      to_byte (Slot frame);
      to_byte (Z.shiftr proofLength 24);
      to_byte (Z.shiftr proofLength 16);
      to_byte (Z.shiftr proofLength 8);
      to_byte proofLength ];
  write_then writer (elems out) (fun writer =>
  write_then writer (Proof frame) (fun writer =>
  write_certs writer (Certificates frame))).
End CredentialFrame.

(** ** The stream *)

(** Modelled from the spec: the type [Header] and its methods [Set] and
    [Update] are declared outside the sources at hand.  The spec gives the
    stream an "accumulated header mapping"; [Set] sets the value of a name and
    [Update] merges another mapping into it, where "later values win,
    set-semantics per name".  The map is taken to be allocated. *)
Abbreviation Header := (gmap string string).

Definition Header_Set (h : Header) (key value : string) : Header :=
  <[key := value]> h.

Definition Header_Update (h other : Header) : Header := other ∪ h.

(** The implementations of the interface [Frame]. *)
Inductive Frame : Type :=
| FrameSynStream (f : SynStreamFrame.t)
| FrameSynReply (f : SynReplyFrame.t Header)
| FrameRstStream (f : RstStreamFrame.t)
| FrameSettings (f : SettingsFrame.t)
| FramePing (f : PingFrame.t)
| FrameGoaway (f : GoawayFrame.t)
| FrameHeaders (f : HeadersFrame.t Header)
| FrameWindowUpdate (f : WindowUpdateFrame.t)
| FrameCredential (f : CredentialFrame.t)
| FrameData (f : DataFrame.t).

(** The function [Parse] of [spdy.go]: both branches on the control bit are
    empty and the function ends in [panic("Unreachable")]. *)
Definition Parse (data : slice) : result (Frame * option error) :=
  d0 ← index data 0;
  let _ := negb (Z.land d0 0x80 =? 0) in
  Panic (ExplicitPanic "Unreachable").

(** The stream slices byte slices within their length only; it is modelled on
    their contents.  [l[lo:]] and [l[:hi]]: *)
Definition bytes_from (l : list byte) (lo : Z) : result (list byte) :=
  let n := Z.of_nat (length l) in
  if (0 <=? lo) && (lo <=? n) then Ok (drop (Z.to_nat lo) l)
  else Panic (SliceBoundsOutOfRange lo n n).

Definition bytes_to (l : list byte) (hi : Z) : result (list byte) :=
  let n := Z.of_nat (length l) in
  if (0 <=? hi) && (hi <=? n) then Ok (take (Z.to_nat hi) l)
  else Panic (SliceBoundsOutOfRange 0 hi n).

(** [*p] for a pointer [p] that may be nil. *)
Definition deref {A : Type} (p : option A) : result A :=
  match p with
  | Some a => Ok a
  | None => Panic NilPointerDereference
  end.

Module queue.
Record t : Type := Make {
  data : option (list byte)   (* [None] is the nil slice *)
}.

(** [new(queue)] *)
Definition new : t := {| data := None |}.

Definition contents (q : t) : list byte := default [] (data q).

Definition Push (q : t) (d : list byte) : t :=
  match data q with
  | None => {| data := Some d |}
  | Some old => {| data := Some (old ++ d) |}
  end.

Definition Pop (q : t) (n : Z) : result (option (list byte) * t) :=
  if n <? Z.of_nat (length (contents q)) then
    out ← bytes_to (contents q) n;
    rest ← bytes_from (contents q) n;
    mret (Some out, {| data := Some rest |})
  else
    mret (data q, {| data := None |}).

Definition Empty (q : t) : bool := Z.of_nat (length (contents q)) =? 0.
End queue.

(** [http.StatusOK] *)
Definition StatusOK : Z := 200.

Module stream.
(** The fields that the methods below read or write.  The channels are
    modelled by their traffic: [input] holds the frames that wait in the input
    channel, [output] the frames sent on the output channel, oldest first.
    [requestBody] and [queuedData] are pointers, [None] when nil.  The fields
    [conn], [state], [request], [handler], [certificates], [settings],
    [unidirectional] and [responseSent] take no part in these methods. *)
Record t : Type := Make {
  streamID : Z;                       (* uint32 *)
  requestBody : option (list byte);   (* *bytes.Buffer *)
  input : list Frame;
  output : list Frame;
  headers : Header;
  responseCode : Z;                   (* int *)
  stop : bool;
  transferWindow : Z;                 (* int64 *)
  queuedData : option queue.t;        (* *queue *)
  wroteHeader : bool;
  version : Z                         (* int *)
}.

Definition set_requestBody (s : t) (b : option (list byte)) : t :=
  Make (streamID s) b (input s) (output s) (headers s) (responseCode s) (stop s)
       (transferWindow s) (queuedData s) (wroteHeader s) (version s).

Definition set_input (s : t) (fs : list Frame) : t :=
  Make (streamID s) (requestBody s) fs (output s) (headers s) (responseCode s) (stop s)
       (transferWindow s) (queuedData s) (wroteHeader s) (version s).

(** [s.output <- frame] *)
Definition send (s : t) (frame : Frame) : t :=
  Make (streamID s) (requestBody s) (input s) (output s ++ [frame]) (headers s)
       (responseCode s) (stop s) (transferWindow s) (queuedData s) (wroteHeader s)
       (version s).

Definition set_headers (s : t) (h : Header) : t :=
  Make (streamID s) (requestBody s) (input s) (output s) h (responseCode s) (stop s)
       (transferWindow s) (queuedData s) (wroteHeader s) (version s).

Definition set_responseCode (s : t) (code : Z) : t :=
  Make (streamID s) (requestBody s) (input s) (output s) (headers s) code (stop s)
       (transferWindow s) (queuedData s) (wroteHeader s) (version s).

Definition set_transferWindow (s : t) (w : Z) : t :=
  Make (streamID s) (requestBody s) (input s) (output s) (headers s) (responseCode s)
       (stop s) w (queuedData s) (wroteHeader s) (version s).

Definition set_queuedData (s : t) (q : option queue.t) : t :=
  Make (streamID s) (requestBody s) (input s) (output s) (headers s) (responseCode s)
       (stop s) (transferWindow s) q (wroteHeader s) (version s).

Definition set_wroteHeader (s : t) (b : bool) : t :=
  Make (streamID s) (requestBody s) (input s) (output s) (headers s) (responseCode s)
       (stop s) (transferWindow s) (queuedData s) b (version s).

(** The method [Header()]. *)
Definition Header_of (s : t) : Header := headers s.

(** The SYN_REPLY frame shares the header map with the stream; the model
    records the mapping as it is when the frame is sent. *)
Definition WriteHeader (s : t) (code : Z) : t :=
  if wroteHeader s then s else
  let s := set_wroteHeader s true in
  let s := set_responseCode s code in
  let s := set_headers s (Header_Set (headers s) ":status" (pretty code)) in
  let s := set_headers s (Header_Set (headers s) ":version" "HTTP/1.1") in
  let synReply :=
    {| SynReplyFrame.Version := to_uint16 (version s);
       SynReplyFrame.Flags := 0;
       SynReplyFrame.StreamID := streamID s;
       SynReplyFrame.Headers := headers s |} in
  send s (FrameSynReply synReply).

(** [Write] returns the new stream with the pair [(n, err)] of the source.
    The debug print under [DebugMode] changes nothing of the stream. *)
Definition Write (s : t) (data : list byte) : result (t * (Z * option error)) :=
  if stop s then mret (s, (0, Some ErrCancelled)) else
  let s := if negb (wroteHeader s) then WriteHeader s StatusOK else s in
  if Z.of_nat (length data) =? 0 then mret (s, (0, None)) else
  r ← (if transferWindow s <? Z.of_nat (length data) then
         rest ← bytes_from data (transferWindow s);
         q ← deref (queuedData s);
         let s := set_queuedData s (Some (queue.Push q rest)) in
         data' ← bytes_to data (transferWindow s);
         mret (s, data')
       else mret (s, data));
  let '(s, data) := r in
  let dataFrame :=
    {| DataFrame.StreamID := streamID s; DataFrame.Flags := 0; DataFrame.Data := data |} in
  let s := set_transferWindow s (to_int64 (transferWindow s - Z.of_nat (length data))) in
  let s := send s (FrameData dataFrame) in
  mret (s, (Z.of_nat (length data), None)).

(** For a nil argument the source returns at once; an empty list of settings
    that is not nil is sent.  [settings] is [None] for nil. *)
Definition WriteSettings (s : t) (settings : option (list Setting.t)) : t :=
  match settings with
  | None => s
  | Some l =>
      send s (FrameSettings {| SettingsFrame.Version := to_uint16 (version s);
                               SettingsFrame.Flags := 0;
                               SettingsFrame.Settings := l |})
  end.

Section constants.
(** The status codes of RST_STREAM and the FIN flag are declared outside the
    sources at hand: they are parameters. *)
Variables (RST_STREAM_FLOW_CONTROL_ERROR RST_STREAM_CANCEL : Z) (FLAG_FIN : byte).

Definition receiveFrame (s : t) (frame : Frame) : result t :=
  match frame with
  | FrameData f =>
      body ← deref (requestBody s);
      mret (set_requestBody s (Some (body ++ DataFrame.Data f)))
  | FrameHeaders f =>
      mret (set_headers s (Header_Update (headers s) (HeadersFrame.Headers f)))
  | FrameWindowUpdate f =>
      if 0x80000000 <? to_int64 (WindowUpdateFrame.DeltaWindowSize f + transferWindow s) then
        let reply :=
          {| RstStreamFrame.Version := to_uint16 (version s);
             RstStreamFrame.Flags := 0;
             RstStreamFrame.StreamID := streamID s;
             RstStreamFrame.StatusCode := RST_STREAM_FLOW_CONTROL_ERROR |} in
        mret (send s (FrameRstStream reply))
      else
        let s := set_transferWindow s
                   (to_int64 (transferWindow s + WindowUpdateFrame.DeltaWindowSize f)) in
        q ← deref (queuedData s);
        r ← queue.Pop q (transferWindow s);
        let '(data, q') := r in
        let s := set_queuedData s (Some q') in
        match data with
        | Some d =>
            if 0 <? Z.of_nat (length d) then
              w ← Write s d;
              match w with
              | (_, (_, Some err)) => Panic (PanicError err)
              | (s', (_, None)) => mret s'
              end
            else mret s
        | None => mret s
        end
  | _ => Panic (ExplicitPanic "Received unknown frame")
  end.

(** [processInput] receives the frames that wait in the input channel, in
    order, until the channel has none. *)
Fixpoint receive_all (s : t) (frames : list Frame) : result t :=
  match frames with
  | [] => mret s
  | frame :: rest => s' ← receiveFrame s frame; receive_all s' rest
  end.

Definition processInput (s : t) : result t :=
  receive_all (set_input s []) (input s).

(** [run] up to the call of the handler. *)
Definition run_prepare (s : t) : result t :=
  let s := set_requestBody s (Some []) in
  s ← processInput s;
  let s := set_transferWindow s 65536 in
  mret (set_queuedData s (Some queue.new)).

(** [run] after the handler has returned.  [s.conn.done.Done()] signals the
    connection and leaves the stream as it is. *)
Definition run_finish (s : t) : t :=
  if negb (wroteHeader s) then
    let s := set_headers s (Header_Set (headers s) ":status" "200") in
    let s := set_headers s (Header_Set (headers s) ":version" "HTTP/1.1") in
    let synReply :=
      {| SynReplyFrame.Version := to_uint16 (version s);
         SynReplyFrame.Flags := FLAG_FIN;
         SynReplyFrame.StreamID := streamID s;
         SynReplyFrame.Headers := headers s |} in
    send s (FrameSynReply synReply)
  else
    let cancel :=
      {| RstStreamFrame.Version := to_uint16 (version s);
         RstStreamFrame.Flags := 0;
         RstStreamFrame.StreamID := streamID s;
         RstStreamFrame.StatusCode := RST_STREAM_CANCEL |} in
    send s (FrameRstStream cancel).

(** [handler] is what [s.handler.ServeSPDY(s, s.request)] does to the stream
    through the methods of the stream; a panic of the handler ends [run]. *)
Definition run (handler : t -> result t) (s : t) : result t :=
  s ← run_prepare s;
  s ← handler s;
  mret (run_finish s).
End constants.
End stream.

(** ** Connection set-up *)

(** Of a connection the model keeps the numeric state that the constructors
    initialise; the network connection, the channels, the maps, the locks and
    the compression state are left out.  [server] tells whether the field
    [server] is not nil. *)
Section connections.
(** The default window sizes and the stream limits are declared outside the
    sources at hand: they are parameters. *)
Variables (DEFAULT_INITIAL_WINDOW_SIZE DEFAULT_INITIAL_CLIENT_WINDOW_SIZE : Z).
Variables (DEFAULT_STREAM_LIMIT NO_STREAM_LIMIT : Z).

Record connV3 : Type := MakeConnV3 {
  v3_remoteAddr : string;
  v3_server : bool;
  v3_nextPingID : Z;             (* uint32 *)
  v3_lastPushStreamID : Z;
  v3_lastRequestStreamID : Z;
  v3_oddity : Z;
  v3_initialWindowSize : Z;      (* uint32 *)
  v3_requestStreamLimit : Z;
  v3_pushStreamLimit : Z
}.

(** [conn] is [None] for a nil [net.Conn] and its remote address otherwise;
    [client] tells whether the [*http.Client] is not nil. *)
Definition NewClientConn (conn : option string) (client : bool) (version : Z)
  : option connV3 * option error :=
  match conn with
  | None => (None, Some (ErrorsNew "Error: Connection initialised with nil net.conn."))
  | Some addr =>
      if negb client then
        (None, Some (ErrorsNew "Error: Connection initialised with nil client."))
      else if version =? 3 then
        (Some {| v3_remoteAddr := addr;
                 v3_server := false;
                 v3_nextPingID := 2;
                 v3_lastPushStreamID := 0;
                 v3_lastRequestStreamID := 0;
                 v3_oddity := 1;
                 v3_initialWindowSize := DEFAULT_INITIAL_CLIENT_WINDOW_SIZE;
                 v3_requestStreamLimit := NO_STREAM_LIMIT;
                 v3_pushStreamLimit := DEFAULT_STREAM_LIMIT |}, None)
      else (None, Some (ErrorsNew "Error: Unrecognised SPDY version."))
  end.

(** [spdy3.Conn] *)
Record Conn : Type := MakeConn {
  Subversion : Z;
  connectionWindowSize : Z;      (* int64 *)
  remoteAddr : string;
  server : bool;
  vectorIndex : Z;               (* uint16 *)
  nextPingID : Z;                (* uint32 *)
  lastPushStreamID : Z;
  lastRequestStreamID : Z;
  oddity : Z;
  initialWindowSize : Z;         (* uint32 *)
  requestStreamLimit : Z;
  pushStreamLimit : Z
}.

(** [conn] is the remote address of the network connection, which the source
    dereferences at once; [server] tells whether the [*http.Server] is not
    nil. *)
Definition NewConn (conn : string) (server : bool) (subversion : Z) : Conn :=
  if server then
    {| Subversion := subversion;
       connectionWindowSize := if subversion =? 0 then 0
                               else if subversion =? 1 then DEFAULT_INITIAL_WINDOW_SIZE
                               else 0;
       remoteAddr := conn;
       server := true;
       vectorIndex := 8;
       nextPingID := 2;
       lastPushStreamID := 0;
       lastRequestStreamID := 0;
       oddity := 0;
       initialWindowSize := DEFAULT_INITIAL_WINDOW_SIZE;
       requestStreamLimit := DEFAULT_STREAM_LIMIT;
       pushStreamLimit := NO_STREAM_LIMIT |}
  else
    {| Subversion := subversion;
       connectionWindowSize := if subversion =? 1 then DEFAULT_INITIAL_CLIENT_WINDOW_SIZE
                               else 0;
       remoteAddr := conn;
       server := false;
       vectorIndex := 0;
       nextPingID := 1;
       lastPushStreamID := 0;
       lastRequestStreamID := 0;
       oddity := 1;
       initialWindowSize := DEFAULT_INITIAL_CLIENT_WINDOW_SIZE;
       requestStreamLimit := NO_STREAM_LIMIT;
       pushStreamLimit := DEFAULT_STREAM_LIMIT |}.
End connections.

(** The parity that the role of a connection asks of the ping ids it issues:
    a client (no server) issues odd ids, a server even ids. *)
Definition ping_parity_matches_role (is_server : bool) (pingID : Z) : bool :=
  if is_server then Z.even pingID else Z.odd pingID.

(** ** The invariant of a stream that a handler writes to

    [run] allocates the queue and sets the window to 65536 before it calls the
    handler, and neither [Write] nor [receiveFrame] frees the queue or takes
    the window below zero or above 2^31. *)
Definition running (s : stream.t) : Prop :=
  is_Some (stream.queuedData s) /\ 0 <= stream.transferWindow s <= 2 ^ 31.

(** The frames whose delta fits a uint32. *)
Definition deltas_typed (frames : list Frame) : Prop :=
  forall f, FrameWindowUpdate f ∈ frames ->
            0 <= WindowUpdateFrame.DeltaWindowSize f < 2 ^ 32.

(** ** What happens to a stream while its handler runs

    The handler calls [Write], and WINDOW_UPDATE frames arrive and are given
    to [receiveFrame]; [play] runs such events in order. *)
Inductive event : Type :=
| WriteCall (data : list byte)
| WindowUpdateArrives (f : WindowUpdateFrame.t).

Definition play_one (FCE : Z) (s : stream.t) (ev : event) : result stream.t :=
  match ev with
  | WriteCall data => r ← stream.Write s data; mret r.1
  | WindowUpdateArrives f => stream.receiveFrame FCE s (FrameWindowUpdate f)
  end.

Fixpoint play (FCE : Z) (s : stream.t) (evs : list event) : result stream.t :=
  match evs with
  | [] => mret s
  | ev :: rest => s' ← play_one FCE s ev; play FCE s' rest
  end.

(** The bytes that the calls of [Write] among [evs] were given, in order. *)
Definition written (evs : list event) : list byte :=
  flat_map (fun ev => match ev with
                      | WriteCall data => data
                      | WindowUpdateArrives _ => []
                      end) evs.

(** The deltas among [evs] fit a uint32. *)
Definition updates_typed (evs : list event) : Prop :=
  forall f, WindowUpdateArrives f ∈ evs ->
            0 <= WindowUpdateFrame.DeltaWindowSize f < 2 ^ 32.

(** ** Streams and handlers to evaluate the stream on *)

(** A stream as [run] hands it to the handler, but for the window and the
    stop flag. *)
Definition demo_stream (window : Z) (stopped : bool) : stream.t :=
  {| stream.streamID := 1;
     stream.requestBody := Some [];
     stream.input := [];
     stream.output := [];
     stream.headers := ∅;
     stream.responseCode := 0;
     stream.stop := stopped;
     stream.transferWindow := window;
     stream.queuedData := Some queue.new;
     stream.wroteHeader := false;
     stream.version := 3 |}.

(** A stream whose window is used up, with [queued] in its queue. *)
Definition queued_stream (queued : list byte) (stopped : bool) : stream.t :=
  {| stream.streamID := 1;
     stream.requestBody := Some [];
     stream.input := [];
     stream.output := [];
     stream.headers := ∅;
     stream.responseCode := 200;
     stream.stop := stopped;
     stream.transferWindow := 0;
     stream.queuedData := Some {| queue.data := Some queued |};
     stream.wroteHeader := true;
     stream.version := 3 |}.

(** A handler that writes the header and returns. *)
Definition header_only_handler (s : stream.t) : result stream.t :=
  Ok (stream.WriteHeader s StatusOK).

(** ** The bytes of a stream on the wire and in the queue *)

(** The payloads of the DATA frames among [frames], in order. *)
Definition data_sent (frames : list Frame) : list byte :=
  flat_map (fun frame => match frame with
                         | FrameData f => DataFrame.Data f
                         | _ => []
                         end) frames.

(** The bytes that wait in the queue of a stream. *)
Definition pending (s : stream.t) : list byte :=
  from_option queue.contents [] (stream.queuedData s).

(** A running stream holds bytes in its queue only when its window is used
    up. *)
Definition orderly (s : stream.t) : Prop :=
  running s /\ (pending s <> [] -> stream.transferWindow s = 0).

(** ** Proof automation *)

(** Case analysis on the next step of a parse: the result that the next bind
    waits for, or the next test. *)
Ltac parse_step :=
  match goal with
  | |- context [mbind _ ?m] => destruct m eqn:?; simpl
  | |- context [if ?b then _ else _] => destruct b eqn:?; simpl
  end.

(** Evaluation of a parse on a slice whose layout is known and whose bytes
    may be variables: the accesses to the slice and the tests on constants are
    computed, the arithmetic on the variables is left as it is. *)
Ltac run_closed :=
  first
    [ match goal with
      | |- context [index ?s ?i] =>
          let r := eval vm_compute in (index s i) in change (index s i) with r
      end
    | match goal with
      | |- context [reslice ?s ?i ?j] =>
          let r := eval vm_compute in (reslice s i j) in change (reslice s i j) with r
      end
    | match goal with
      | |- context [len ?s] =>
          let r := eval vm_compute in (len s) in change (len s) with r
      end
    | match goal with
      | |- context [Z.eqb ?a ?b] =>
          let r := eval vm_compute in (Z.eqb a b) in
          match r with
          | true => change (Z.eqb a b) with true
          | false => change (Z.eqb a b) with false
          end
      end
    | match goal with
      | |- context [Z.ltb ?a ?b] =>
          let r := eval vm_compute in (Z.ltb a b) in
          match r with
          | true => change (Z.ltb a b) with true
          | false => change (Z.ltb a b) with false
          end
      end
    | progress (cbv [mbind result_bind mret result_ret negb]; cbv beta iota) ].

(** * Properties *)

(** ** Arithmetic and list facts *)

Lemma to_int64_id (x : Z) : - 2 ^ 63 <= x < 2 ^ 63 -> to_int64 x = x.
Proof.
  intros Hx. unfold to_int64.
  rewrite Z.mod_small by lia. lia.
Qed.

Lemma length_take_Z {A : Type} (l : list A) (k : Z) :
  0 <= k ->
  Z.of_nat (length (take (Z.to_nat k) l)) = Z.min (Z.of_nat (length l)) k.
Proof. intros Hk. rewrite length_take. lia. Qed.

Lemma bytes_from_ok (l : list byte) (lo : Z) :
  0 <= lo <= Z.of_nat (length l) -> bytes_from l lo = Ok (drop (Z.to_nat lo) l).
Proof.
  intros [H0 H1]. unfold bytes_from.
  apply Z.leb_le in H0, H1. by rewrite H0, H1.
Qed.

Lemma bytes_to_ok (l : list byte) (hi : Z) :
  0 <= hi <= Z.of_nat (length l) -> bytes_to l hi = Ok (take (Z.to_nat hi) l).
Proof.
  intros [H0 H1]. unfold bytes_to.
  apply Z.leb_le in H0, H1. by rewrite H0, H1.
Qed.

(** ** The stream: [WriteHeader] touches neither the flow control nor the
    stop flag *)

Lemma WriteHeader_stop s code : stream.stop (stream.WriteHeader s code) = stream.stop s.
Proof. unfold stream.WriteHeader. by destruct (stream.wroteHeader s). Qed.

Lemma WriteHeader_transferWindow s code :
  stream.transferWindow (stream.WriteHeader s code) = stream.transferWindow s.
Proof. unfold stream.WriteHeader. by destruct (stream.wroteHeader s). Qed.

Lemma WriteHeader_queuedData s code :
  stream.queuedData (stream.WriteHeader s code) = stream.queuedData s.
Proof. unfold stream.WriteHeader. by destruct (stream.wroteHeader s). Qed.

Lemma WriteHeader_streamID s code :
  stream.streamID (stream.WriteHeader s code) = stream.streamID s.
Proof. unfold stream.WriteHeader. by destruct (stream.wroteHeader s). Qed.

Lemma WriteHeader_wroteHeader s code :
  stream.wroteHeader (stream.WriteHeader s code) = true.
Proof. unfold stream.WriteHeader. by destruct (stream.wroteHeader s) eqn:E. Qed.

Lemma WriteHeader_written s code :
  stream.wroteHeader s = true -> stream.WriteHeader s code = s.
Proof. intros H. unfold stream.WriteHeader. by rewrite H. Qed.

(** The first steps of [Write] on a stream that is not stopped amount to
    [WriteHeader s StatusOK], which does nothing when the header is written. *)
Lemma Write_header_step s :
  (if negb (stream.wroteHeader s) then stream.WriteHeader s StatusOK else s)
  = stream.WriteHeader s StatusOK.
Proof.
  destruct (stream.wroteHeader s) eqn:E; simpl; [|done].
  by rewrite WriteHeader_written.
Qed.

Lemma set_queuedData_same s q :
  stream.queuedData s = Some q -> stream.set_queuedData s (Some q) = s.
Proof. destruct s; simpl. by intros ->. Qed.

(** What [Write] does to a running stream, in full: the header is written if
    it was not, the part of [data] beyond the window is pushed on the queue,
    the part within the window is sent and taken off the window. *)
Lemma Write_running (s : stream.t) (q : queue.t) (data : list byte) :
  stream.stop s = false ->
  data <> [] ->
  0 <= stream.transferWindow s ->
  stream.transferWindow s - Z.of_nat (length data) < 2 ^ 63 ->
  stream.queuedData s = Some q ->
  let w := stream.transferWindow s in
  let n := Z.of_nat (length data) in
  let s0 := stream.WriteHeader s StatusOK in
  let q' := if w <? n then queue.Push q (drop (Z.to_nat w) data) else q in
  let frame := {| DataFrame.StreamID := stream.streamID s; DataFrame.Flags := 0;
                  DataFrame.Data := take (Z.to_nat w) data |} in
  stream.Write s data
  = Ok (stream.send
          (stream.set_transferWindow (stream.set_queuedData s0 (Some q')) (w - Z.min n w))
          (FrameData frame),
        (Z.min n w, None)).
Proof.
  intros Hstop Hdata Hw Hwn Hq w n s0 q' frame.
  unfold stream.Write. rewrite Hstop, Write_header_step. fold s0.
  assert (Hn : 0 < n) by (subst n; destruct data; [done | simpl; lia]).
  replace (Z.of_nat (length data) =? 0) with false by (symmetry; apply Z.eqb_neq; lia).
  assert (Hw0 : stream.transferWindow s0 = w) by apply WriteHeader_transferWindow.
  assert (Hq0 : stream.queuedData s0 = Some q)
    by (unfold s0; by rewrite WriteHeader_queuedData).
  assert (Hid : stream.streamID s0 = stream.streamID s) by apply WriteHeader_streamID.
  clearbody s0. rewrite Hw0, Hq0. fold n.
  subst q' frame. destruct (Z.ltb_spec w n) as [Hlt | Hge].
  - rewrite bytes_from_ok by lia. simpl. rewrite Hw0, bytes_to_ok by lia. simpl.
    rewrite Hw0, Hid, length_take_Z by lia. fold n.
    rewrite to_int64_id by lia. done.
  - simpl. rewrite Hw0, Hid, take_ge by lia. fold n.
    rewrite to_int64_id, set_queuedData_same by (done || lia).
    replace (Z.min n w) with n by lia. done.
Qed.

(** What a WINDOW_UPDATE within the bound does to a running stream that has
    data queued: the window grows by the delta, the head of the queue that
    fits the new window is popped and written as one DATA frame. *)
Lemma receiveFrame_WindowUpdate_flush (FCE : Z) (s : stream.t) (q : queue.t)
  (f : WindowUpdateFrame.t) :
  stream.stop s = false ->
  stream.wroteHeader s = true ->
  stream.queuedData s = Some q ->
  queue.contents q <> [] ->
  0 <= stream.transferWindow s ->
  0 <= WindowUpdateFrame.DeltaWindowSize f ->
  0 < stream.transferWindow s + WindowUpdateFrame.DeltaWindowSize f <= 2 ^ 31 ->
  let w := stream.transferWindow s + WindowUpdateFrame.DeltaWindowSize f in
  let Q := queue.contents q in
  let q' := if w <? Z.of_nat (length Q)
            then {| queue.data := Some (drop (Z.to_nat w) Q) |}
            else {| queue.data := None |} in
  let frame := {| DataFrame.StreamID := stream.streamID s; DataFrame.Flags := 0;
                  DataFrame.Data := take (Z.to_nat w) Q |} in
  stream.receiveFrame FCE s (FrameWindowUpdate f)
  = Ok (stream.send
          (stream.set_transferWindow (stream.set_queuedData s (Some q'))
             (w - Z.min (Z.of_nat (length Q)) w))
          (FrameData frame)).
Proof.
  intros Hstop Hhdr Hq HQ Hw Hd Hsum w Q q' frame.
  unfold stream.receiveFrame.
  rewrite (Z.add_comm (WindowUpdateFrame.DeltaWindowSize f)). fold w.
  rewrite to_int64_id by lia.
  replace (2147483648 <? w) with false by (symmetry; apply Z.ltb_ge; lia).
  simpl. rewrite Hq. simpl. unfold queue.Pop. fold Q.
  assert (HlenQ : 0 < Z.of_nat (length Q)).
  { subst Q. destruct (queue.contents q); [done | simpl; lia]. }
  set (mid := stream.set_queuedData (stream.set_transferWindow s w) (Some q')).
  assert (Hmid : stream.Write mid (take (Z.to_nat w) Q)
                 = Ok (stream.send
                         (stream.set_transferWindow mid (w - Z.min (Z.of_nat (length Q)) w))
                         (FrameData frame), (Z.min (Z.of_nat (length Q)) w, None))).
  { assert (Hne : take (Z.to_nat w) Q <> []).
    { intros E. apply (f_equal length) in E. rewrite length_take in E.
      simpl in E. lia. }
    assert (Hmw : stream.transferWindow mid = w) by done.
    assert (Hmq : stream.queuedData mid = Some q') by done.
    assert (Hms : stream.stop mid = false) by done.
    assert (Hmh : stream.wroteHeader mid = true) by done.
    assert (Hmi : stream.streamID mid = stream.streamID s) by done.
    rewrite (Write_running mid q' (take (Z.to_nat w) Q) Hms Hne) by (done || lia).
    rewrite Hmw, Hmi, (WriteHeader_written mid) by done.
    rewrite length_take_Z by lia.
    replace (w <? Z.min (Z.of_nat (length Q)) w) with false
      by (symmetry; apply Z.ltb_ge; lia).
    rewrite set_queuedData_same by done.
    rewrite take_take, Nat.min_id.
    replace (Z.min (Z.min (Z.of_nat (length Q)) w) w) with (Z.min (Z.of_nat (length Q)) w)
      by lia.
    done. }
  subst q'. destruct (Z.ltb_spec w (Z.of_nat (length Q))) as [Hlt | Hge].
  - rewrite bytes_to_ok, bytes_from_ok by lia. simpl.
    rewrite length_take_Z by lia.
    replace (0 <? Z.min (Z.of_nat (length Q)) w) with true
      by (symmetry; apply Z.ltb_lt; lia).
    fold mid. rewrite Hmid. done.
  - simpl. unfold Q, queue.contents in *. destruct (queue.data q) as [l|]; [|done].
    simpl in *.
    replace (0 <? Z.of_nat (length l)) with true by (symmetry; apply Z.ltb_lt; lia).
    fold mid. rewrite take_ge in Hmid by lia. rewrite Hmid. done.
Qed.

Lemma queue_contents_Push q d :
  queue.contents (queue.Push q d) = queue.contents q ++ d.
Proof. unfold queue.Push, queue.contents. by destruct (queue.data q). Qed.

(** ** [Write] *)

(** C9: on a stream whose stop flag is set, [Write] returns 0 bytes and the
    cancellation error at once, and the stream is as it was: nothing is added
    to the output, the transfer window and the queue are untouched. *)
Theorem Write_stopped_stream_cancelled (s : stream.t) (data : list byte) :
  stream.stop s = true ->
  stream.Write s data = Ok (s, (0, Some ErrCancelled)).
Proof. intros Hstop. unfold stream.Write. by rewrite Hstop. Qed.

Lemma Write_stopped_stream_cancelled_witness :
  stream.stop (demo_stream 65536 true) = true /\
  stream.Write (demo_stream 65536 true) [104; 105]
  = Ok (demo_stream 65536 true, (0, Some ErrCancelled)).
Proof.
  split; [reflexivity |].
  apply (Write_stopped_stream_cancelled (demo_stream 65536 true) [104; 105]).
  reflexivity.
Defined.

(** C10: on a stream that is not stopped, with a window [w] that is not
    negative and an allocated queue, [Write] of a non-empty input of [n] bytes
    returns [min n w], the length of the prefix it sends, and no error; the
    bytes beyond the window are appended to the queue and are not counted.
    With a window of zero it returns 0 and no error, queues the whole input
    and still sends a DATA frame, an empty one. *)
Theorem Write_returns_length_of_sent_prefix (s : stream.t) (q : queue.t)
  (data : list byte) :
  stream.stop s = false ->
  data <> [] ->
  0 <= stream.transferWindow s < 2 ^ 63 ->
  stream.queuedData s = Some q ->
  let w := stream.transferWindow s in
  let n := Z.of_nat (length data) in
  exists (s' : stream.t) (q' : queue.t),
    stream.Write s data = Ok (s', (Z.min n w, None)) /\
    stream.output s'
    = stream.output (stream.WriteHeader s StatusOK)
      ++ [FrameData {| DataFrame.StreamID := stream.streamID s; DataFrame.Flags := 0;
                       DataFrame.Data := take (Z.to_nat w) data |}] /\
    stream.queuedData s' = Some q' /\
    queue.contents q' = queue.contents q ++ drop (Z.to_nat w) data /\
    (w = 0 ->
       stream.Write s data = Ok (s', (0, None)) /\
       queue.contents q' = queue.contents q ++ data /\
       stream.output s'
       = stream.output (stream.WriteHeader s StatusOK)
         ++ [FrameData {| DataFrame.StreamID := stream.streamID s; DataFrame.Flags := 0;
                          DataFrame.Data := [] |}]).
Proof.
  intros Hstop Hdata Hw Hq w n.
  pose proof (Write_running s q data Hstop Hdata) as HW.
  simpl in HW. fold w n in HW. rewrite HW by (done || lia). clear HW.
  eexists _, _. split; [reflexivity |].
  assert (Hc : queue.contents (if w <? n then queue.Push q (drop (Z.to_nat w) data) else q)
               = queue.contents q ++ drop (Z.to_nat w) data).
  { destruct (Z.ltb_spec w n).
    - apply queue_contents_Push.
    - rewrite drop_ge by lia. by rewrite app_nil_r. }
  split; [done |]. split; [done |]. split; [exact Hc |].
  intros Hw0. rewrite Hw0 in *. simpl in *.
  replace (Z.min n 0) with 0 by lia. done.
Qed.

Lemma Write_returns_length_of_sent_prefix_witness :
  exists s' : stream.t,
    stream.Write (demo_stream 4 false) [1; 2; 3; 4; 5; 6] = Ok (s', (4, None)).
Proof.
  destruct (Write_returns_length_of_sent_prefix
              (demo_stream 4 false) queue.new [1; 2; 3; 4; 5; 6])
    as (s' & q' & HW & _).
  - reflexivity.
  - discriminate.
  - simpl. lia.
  - reflexivity.
  - exists s'. exact HW.
Defined.

(** C4: on a stream that is not stopped, whose queue is allocated and whose
    window [w] is not negative, [Write] of more than [w] bytes sends the first
    [w] bytes as one DATA frame, appends the other bytes to the queue in order
    and leaves the window at zero.  A later WINDOW_UPDATE that grows the window
    (by at most 2^31) pops the head of the queue that fits and sends it through
    [Write].  So for 100000 bytes against a window of 65536 and an empty
    queue: one DATA frame of 65536 bytes, 34464 bytes queued, and after an
    update of 40000 a second DATA frame with the 34464 queued bytes and an
    empty queue. *)
Theorem Write_beyond_window_queues_then_flushes (FCE : Z) (s : stream.t)
  (q : queue.t) (data : list byte) :
  stream.stop s = false ->
  stream.queuedData s = Some q ->
  0 <= stream.transferWindow s < Z.of_nat (length data) ->
  let w := Z.to_nat (stream.transferWindow s) in
  let Q := queue.contents q ++ drop w data in
  let data_frame (payload : list byte) :=
    FrameData {| DataFrame.StreamID := stream.streamID s; DataFrame.Flags := 0;
                 DataFrame.Data := payload |} in
  exists (s1 : stream.t) (q1 : queue.t),
    stream.Write s data = Ok (s1, (stream.transferWindow s, None)) /\
    stream.output s1
    = stream.output (stream.WriteHeader s StatusOK) ++ [data_frame (take w data)] /\
    stream.queuedData s1 = Some q1 /\
    queue.contents q1 = Q /\
    stream.transferWindow s1 = 0 /\
    (forall f : WindowUpdateFrame.t,
       let delta := WindowUpdateFrame.DeltaWindowSize f in
       0 < delta <= 2 ^ 31 ->
       exists (s2 : stream.t) (q2 : queue.t),
         stream.receiveFrame FCE s1 (FrameWindowUpdate f) = Ok s2 /\
         stream.output s2
         = stream.output s1 ++ [data_frame (take (Z.to_nat delta) Q)] /\
         stream.queuedData s2 = Some q2 /\
         queue.contents q2 = drop (Z.to_nat delta) Q /\
         stream.transferWindow s2
         = delta - Z.of_nat (length (take (Z.to_nat delta) Q))) /\
    (Z.of_nat (length data) = 100000 ->
     stream.transferWindow s = 65536 ->
     queue.contents q = [] ->
     Z.of_nat (length (take w data)) = 65536 /\
     Z.of_nat (length Q) = 34464 /\
     forall f : WindowUpdateFrame.t,
       WindowUpdateFrame.DeltaWindowSize f = 40000 ->
       exists (s2 : stream.t) (q2 : queue.t),
         stream.receiveFrame FCE s1 (FrameWindowUpdate f) = Ok s2 /\
         stream.output s2 = stream.output s1 ++ [data_frame (drop w data)] /\
         stream.queuedData s2 = Some q2 /\
         queue.Empty q2 = true).
Proof.
  intros Hstop Hq Hw w Q data_frame.
  assert (Hdata : data <> []) by (intros ->; simpl in Hw; lia).
  pose proof (Write_running s q data Hstop Hdata) as HW.
  simpl in HW. rewrite HW by (done || lia). clear HW.
  replace (stream.transferWindow s <? Z.of_nat (length data)) with true
    by (symmetry; apply Z.ltb_lt; lia).
  replace (Z.min (Z.of_nat (length data)) (stream.transferWindow s))
    with (stream.transferWindow s) by lia.
  rewrite Z.sub_diag. fold w.
  set (s1 := stream.send _ _).
  set (q1 := queue.Push q (drop w data)).
  assert (HQ : queue.contents q1 = Q) by apply queue_contents_Push.
  assert (HQne : queue.contents q1 <> []).
  { rewrite HQ. intros E. apply (f_equal length) in E. subst Q w.
    rewrite length_app, length_drop in E. simpl in E. lia. }
  assert (Hs1stop : stream.stop s1 = false)
    by (subst s1; simpl; by rewrite WriteHeader_stop).
  assert (Hs1hdr : stream.wroteHeader s1 = true)
    by (subst s1; simpl; by rewrite WriteHeader_wroteHeader).
  assert (Hs1q : stream.queuedData s1 = Some q1) by done.
  assert (Hs1w : stream.transferWindow s1 = 0) by done.
  assert (Hs1id : stream.streamID s1 = stream.streamID s)
    by (subst s1; simpl; by rewrite WriteHeader_streamID).
  assert (Hs1out : stream.output s1
                   = stream.output (stream.WriteHeader s StatusOK)
                     ++ [data_frame (take w data)]) by done.
  exists s1, q1. split; [done |]. clearbody s1 q1.
  (* the flush, for any update that grows the window *)
  assert (Hflush : forall f : WindowUpdateFrame.t,
    0 < WindowUpdateFrame.DeltaWindowSize f <= 2 ^ 31 ->
    exists (s2 : stream.t) (q2 : queue.t),
      stream.receiveFrame FCE s1 (FrameWindowUpdate f) = Ok s2 /\
      stream.output s2
      = stream.output s1
        ++ [data_frame (take (Z.to_nat (WindowUpdateFrame.DeltaWindowSize f)) Q)] /\
      stream.queuedData s2 = Some q2 /\
      queue.contents q2 = drop (Z.to_nat (WindowUpdateFrame.DeltaWindowSize f)) Q /\
      stream.transferWindow s2
      = WindowUpdateFrame.DeltaWindowSize f
        - Z.of_nat (length (take (Z.to_nat (WindowUpdateFrame.DeltaWindowSize f)) Q))).
  { intros f Hd.
    pose proof (receiveFrame_WindowUpdate_flush FCE s1 q1 f Hs1stop Hs1hdr Hs1q HQne)
      as HR.
    cbv zeta in HR. rewrite Hs1w, Hs1id, HQ, Z.add_0_l in HR.
    rewrite HR by lia. clear HR.
    eexists _, _. split; [reflexivity |]. simpl.
    split; [done |]. split; [reflexivity |].
    split.
    - destruct (Z.ltb_spec (WindowUpdateFrame.DeltaWindowSize f) (Z.of_nat (length Q))).
      + done.
      + unfold queue.contents. simpl. rewrite drop_ge by lia. done.
    - rewrite length_take. lia. }
  split; [done |]. split; [done |]. split; [exact HQ |].
  split; [done |]. split; [exact Hflush |].
  intros Hlen Hwin Hempty.
  assert (HlenQ : Z.of_nat (length Q) = 34464).
  { subst Q w. rewrite Hempty. simpl. rewrite length_drop. lia. }
  split; [subst w; rewrite length_take; lia |].
  split; [exact HlenQ |].
  intros f Hf.
  destruct (Hflush f) as (s2 & q2 & HR & Hout & Hq2 & Hc & _); [rewrite Hf; lia |].
  exists s2, q2. split; [exact HR |]. rewrite Hf in *.
  split; [| split; [exact Hq2 |]].
  - rewrite Hout. rewrite take_ge by lia. subst Q. by rewrite Hempty.
  - unfold queue.Empty. rewrite Hc, length_drop. apply Z.eqb_eq. lia.
Qed.

Lemma Write_beyond_window_queues_then_flushes_witness :
  let data := replicate (Z.to_nat 100000) 7 in
  exists (s1 : stream.t) (q1 : queue.t),
    stream.Write (demo_stream 65536 false) data = Ok (s1, (65536, None)) /\
    stream.queuedData s1 = Some q1 /\
    Z.of_nat (length (queue.contents q1)) = 34464 /\
    stream.transferWindow s1 = 0.
Proof.
  intros data.
  destruct (Write_beyond_window_queues_then_flushes
              7 (demo_stream 65536 false) queue.new data)
    as (s1 & q1 & HW & _ & Hq1 & Hc & Hwin & _ & Hscenario).
  - reflexivity.
  - reflexivity.
  - unfold data. rewrite length_replicate. simpl. lia.
  - exists s1, q1. split; [exact HW |]. split; [exact Hq1 |]. split; [| exact Hwin].
    rewrite Hc. apply Hscenario; [| reflexivity | reflexivity].
    unfold data. rewrite length_replicate. lia.
Defined.

(** ** The invariant [running]

    The hypotheses on the queue and on the window under which [Write] is
    specified above hold of every stream that a handler writes to. *)

Lemma run_prepare_running (FCE : Z) (s s0 : stream.t) :
  stream.run_prepare FCE s = Ok s0 ->
  running s0 /\ stream.transferWindow s0 = 65536
  /\ stream.queuedData s0 = Some queue.new.
Proof.
  unfold stream.run_prepare. intros H.
  destruct (stream.processInput FCE _) as [s' |]; simpl in H; [| done].
  injection H as <-. unfold running. simpl. split_and!; [by eexists | lia | lia | done | done].
Qed.

Lemma Write_preserves_running (s s' : stream.t) (data : list byte) (r : Z * option error) :
  running s -> stream.Write s data = Ok (s', r) -> running s'.
Proof.
  intros [[q Hq] Hw] H.
  destruct (stream.stop s) eqn:Hstop.
  { unfold stream.Write in H. rewrite Hstop in H. injection H as <- _.
    split; [by eexists | done]. }
  destruct data as [| b data].
  { unfold stream.Write in H. rewrite Hstop, Write_header_step in H. simpl in H.
    injection H as <- _. unfold running.
    rewrite WriteHeader_queuedData, WriteHeader_transferWindow. split; [by eexists | done]. }
  pose proof (Write_running s q (b :: data) Hstop) as HW. cbv zeta in HW.
  rewrite HW in H by (done || lia). injection H as <- _.
  unfold running. simpl. split; [by eexists | lia].
Qed.

Lemma receiveFrame_preserves_running (FCE : Z) (s s' : stream.t) (frame : Frame) :
  running s ->
  (forall f, frame = FrameWindowUpdate f ->
             0 <= WindowUpdateFrame.DeltaWindowSize f < 2 ^ 32) ->
  stream.receiveFrame FCE s frame = Ok s' ->
  running s'.
Proof.
  intros [[q Hq] Hw] Hty H. destruct frame as [| | | | | | f | f | |]; simpl in H; try done.
  - injection H as <-. split; [by eexists | done].
  - specialize (Hty f eq_refl).
    rewrite to_int64_id in H by lia.
    destruct (Z.ltb_spec 2147483648
                (WindowUpdateFrame.DeltaWindowSize f + stream.transferWindow s)) as [Hgt | Hle].
    { injection H as <-. split; [by eexists | done]. }
    rewrite to_int64_id in H by lia.
    simpl in H. rewrite Hq in H. simpl in H.
    set (w := stream.transferWindow s + WindowUpdateFrame.DeltaWindowSize f) in *.
    destruct (queue.Pop q w) as [[out q'] |]; simpl in H; [| done].
    set (mid := stream.set_queuedData (stream.set_transferWindow s w) (Some q')) in *.
    assert (Hmid : running mid) by (split; [by eexists | simpl; lia]).
    destruct out as [d |]; [| by injection H as <-].
    destruct (0 <? Z.of_nat (length d)); [| by injection H as <-].
    destruct (stream.Write mid d) as [[s1 [n [e |]]] |] eqn:HW; simpl in H; try done.
    injection H as <-. by eapply Write_preserves_running.
  - destruct (stream.requestBody s); simpl in H; [| done].
    injection H as <-. split; [by eexists | done].
Qed.

(** ** WINDOW_UPDATE and the bound of the window *)

(** An update that takes the sum of delta and window above 2^31 is answered
    by RST_STREAM with the flow-control status, and nothing else changes. *)
Lemma receiveFrame_WindowUpdate_above_2_31 (FCE : Z) (s : stream.t)
  (f : WindowUpdateFrame.t) :
  2 ^ 31 < WindowUpdateFrame.DeltaWindowSize f + stream.transferWindow s < 2 ^ 63 ->
  stream.receiveFrame FCE s (FrameWindowUpdate f)
  = Ok (stream.send s
          (FrameRstStream {| RstStreamFrame.Version := to_uint16 (stream.version s);
                             RstStreamFrame.Flags := 0;
                             RstStreamFrame.StreamID := stream.streamID s;
                             RstStreamFrame.StatusCode := FCE |})).
Proof.
  intros H. unfold stream.receiveFrame. rewrite to_int64_id by lia.
  replace (2147483648 <? _) with true by (symmetry; apply Z.ltb_lt; lia). done.
Qed.

(** C2, at the input where the code departs from it: the window is 65536 and
    the delta 2147418112, so their sum is 2^31 and exceeds 2^31-1; the test of
    [receiveFrame] is [> 0x80000000], no RST_STREAM is sent and the window
    grows to 2147483648. *)
Theorem receiveFrame_WindowUpdate_sum_2_31_grows_window (FCE : Z) :
  let s := demo_stream 65536 false in
  let f := {| WindowUpdateFrame.Version := 3; WindowUpdateFrame.StreamID := 1;
              WindowUpdateFrame.DeltaWindowSize := 2147418112 |} in
  2 ^ 31 - 1 < WindowUpdateFrame.DeltaWindowSize f + stream.transferWindow s /\
  stream.receiveFrame FCE s (FrameWindowUpdate f)
  = Ok (stream.set_transferWindow s 2147483648) /\
  stream.output (stream.set_transferWindow s 2147483648) = [].
Proof. split; [simpl; lia |]. split; reflexivity. Qed.

(** ** The end of [run] *)

(** C5, as the code has it: after the handler has returned, [run] sends a
    SYN_REPLY with status 200 and the FIN flag when the header was not
    written, and an RST_STREAM with the cancellation status whenever the
    header was written, whatever the handler did. *)
Theorem run_replies_or_resets (FCE CANCEL : Z) (FIN : byte)
  (handler : stream.t -> result stream.t) (s s0 s1 : stream.t) :
  stream.run_prepare FCE s = Ok s0 ->
  handler s0 = Ok s1 ->
  exists s2 : stream.t,
    stream.run FCE CANCEL FIN handler s = Ok s2 /\
    (stream.wroteHeader s1 = false ->
       stream.output s2
       = stream.output s1
         ++ [FrameSynReply
               {| SynReplyFrame.Version := to_uint16 (stream.version s1);
                  SynReplyFrame.Flags := FIN;
                  SynReplyFrame.StreamID := stream.streamID s1;
                  SynReplyFrame.Headers :=
                    <[":version" := "HTTP/1.1"]> (<[":status" := "200"]> (stream.headers s1)) |}]) /\
    (stream.wroteHeader s1 = true ->
       stream.output s2
       = stream.output s1
         ++ [FrameRstStream
               {| RstStreamFrame.Version := to_uint16 (stream.version s1);
                  RstStreamFrame.Flags := 0;
                  RstStreamFrame.StreamID := stream.streamID s1;
                  RstStreamFrame.StatusCode := CANCEL |}]).
Proof.
  intros Hprep Hhandler. unfold stream.run. rewrite Hprep. simpl. rewrite Hhandler. simpl.
  eexists. split; [reflexivity |].
  unfold stream.run_finish. split; intros ->; reflexivity.
Qed.

Lemma run_replies_or_resets_witness :
  exists s2 : stream.t,
    stream.run 7 5 1 header_only_handler (demo_stream 0 false) = Ok s2 /\
    last (stream.output s2)
    = Some (FrameRstStream {| RstStreamFrame.Version := 3; RstStreamFrame.Flags := 0;
                              RstStreamFrame.StreamID := 1;
                              RstStreamFrame.StatusCode := 5 |}).
Proof.
  destruct (run_replies_or_resets 7 5 1 header_only_handler (demo_stream 0 false)
              (demo_stream 65536 false)
              (stream.WriteHeader (demo_stream 65536 false) StatusOK))
    as (s2 & Hrun & _ & Hreset).
  - reflexivity.
  - reflexivity.
  - exists s2. split; [exact Hrun |].
    rewrite Hreset by reflexivity. reflexivity.
Defined.

(** C5 as stated fails: [header_only_handler] writes the header and returns
    normally, the stop flag is never set, and [run] still resets the stream
    with the cancellation status (here 5). *)
Lemma run_resets_after_normal_completion :
  header_only_handler (demo_stream 65536 false)
  = Ok (stream.WriteHeader (demo_stream 65536 false) StatusOK) /\
  stream.stop (stream.WriteHeader (demo_stream 65536 false) StatusOK) = false /\
  stream.run 7 5 1 header_only_handler (demo_stream 0 false)
  = Ok (stream.send (stream.WriteHeader (demo_stream 65536 false) StatusOK)
          (FrameRstStream {| RstStreamFrame.Version := 3; RstStreamFrame.Flags := 0;
                             RstStreamFrame.StreamID := 1;
                             RstStreamFrame.StatusCode := 5 |})).
Proof. repeat split. Qed.

(** ** The codec *)

(** [data[0]&0x80] is 0 or 0x80, never 1. *)
Lemma land_0x80_not_1 (d : Z) : (Z.land d 0x80 =? 1) = false.
Proof.
  apply Z.eqb_neq. intros H.
  apply (f_equal (fun x => Z.testbit x 0)) in H.
  rewrite Z.land_spec in H. simpl in H. by rewrite andb_false_r in H.
Qed.

(** Four bytes written big-endian and read back. *)
Lemma be32_value (p : Z) :
  0 <= p < 2 ^ 32 ->
  to_uint32 (to_uint32 (to_uint32 (to_uint32 (Z.shiftl (to_byte (Z.shiftr p 24)) 24)
    + to_uint32 (Z.shiftl (to_byte (Z.shiftr p 16)) 16))
    + to_uint32 (Z.shiftl (to_byte (Z.shiftr p 8)) 8)) + to_byte p) = p.
Proof.
  intros Hp. unfold to_uint32, to_byte.
  rewrite !Z.shiftr_div_pow2, !Z.shiftl_mul_pow2 by lia.
  change (2 ^ 24) with 16777216. change (2 ^ 16) with 65536. change (2 ^ 8) with 256.
  change (2 ^ 32) with 4294967296 in *.
  Z.div_mod_to_equations. lia.
Qed.

(** The same with the top bit of the first byte cleared on both sides. *)
Lemma be31_value (p : Z) :
  0 <= p < 2 ^ 31 ->
  to_uint32 (to_uint32 (to_uint32 (to_uint32
      (Z.shiftl (Z.land (Z.land (to_byte (Z.shiftr p 24)) 0x7f) 0x7f) 24)
    + to_uint32 (Z.shiftl (to_byte (Z.shiftr p 16)) 16))
    + to_uint32 (Z.shiftl (to_byte (Z.shiftr p 8)) 8)) + to_byte p) = p.
Proof.
  intros Hp. change 0x7f with (Z.ones 7). rewrite !Z.land_ones by lia.
  unfold to_uint32, to_byte.
  rewrite !Z.shiftr_div_pow2, !Z.shiftl_mul_pow2 by lia.
  change (2 ^ 24) with 16777216. change (2 ^ 16) with 65536. change (2 ^ 8) with 256.
  change (2 ^ 7) with 128. change (2 ^ 32) with 4294967296.
  change (2 ^ 31) with 2147483648 in *.
  Z.div_mod_to_equations. lia.
Qed.

Lemma control_byte_bit (x : Z) : (Z.land (Z.lor 0x80 x) 0x80 =? 0) = false.
Proof.
  apply Z.eqb_neq. rewrite Z.land_lor_distr_l. intros H.
  apply Z.lor_eq_0_iff in H as [H _]. done.
Qed.

Lemma version_value (v : Z) :
  0 <= v < 2 ^ 15 ->
  to_uint16 (to_uint16 (Z.shiftl (Z.land (Z.lor 0x80 (to_byte (Z.shiftr v 8))) 0x7f) 8)
             + to_byte v) = v.
Proof.
  intros Hv. change 0x7f with (Z.ones 7).
  rewrite Z.land_lor_distr_l. change (Z.land 128 (Z.ones 7)) with 0.
  rewrite Z.lor_0_l, Z.land_ones by lia.
  unfold to_uint16, to_byte.
  rewrite !Z.shiftr_div_pow2, !Z.shiftl_mul_pow2 by lia.
  change (2 ^ 16) with 65536. change (2 ^ 8) with 256. change (2 ^ 7) with 128.
  change (2 ^ 15) with 32768 in *.
  Z.div_mod_to_equations. lia.
Qed.

Lemma top_bit_clear (x : Z) : (Z.shiftr (Z.land x 0x7f) 7 =? 0) = true.
Proof.
  apply Z.eqb_eq. change 0x7f with (Z.ones 7).
  rewrite Z.land_ones, Z.shiftr_div_pow2 by lia.
  apply Z.div_small. apply Z.mod_pos_bound. lia.
Qed.

(** The codec does round-trip PING and GOAWAY frames whose fields are in the
    range of the wire format. *)
Lemma PingFrame_round_trip (frame : PingFrame.t) :
  0 <= PingFrame.Version frame < 2 ^ 15 ->
  0 <= PingFrame.PingID frame < 2 ^ 32 ->
  (r ← PingFrame.Bytes frame; PingFrame.Parse (PingFrame.Make 0 0) r.1)
  = Ok (frame, None).
Proof.
  intros Hv Hp. destruct frame as [v p]. simpl in *.
  pose proof (version_value v Hv) as HV. pose proof (be32_value p Hp) as HP.
  pose proof (control_byte_bit (to_byte (Z.shiftr v 8))) as HC.
  set (b0 := Z.lor 128 _) in *. set (b1 := to_byte v) in *.
  set (p3 := to_byte (Z.shiftr p 24)) in *. set (p2 := to_byte (Z.shiftr p 16)) in *.
  set (p1 := to_byte (Z.shiftr p 8)) in *. set (p0 := to_byte p) in *.
  clearbody b0 b1 p3 p2 p1 p0.
  unfold PingFrame.Parse, parse_version, type_differs, orM, reject,
    bytesToUint24, bytesToUint32.
  repeat first [rewrite HC | run_closed].
  by rewrite HV, HP.
Qed.

Lemma GoawayFrame_round_trip (frame : GoawayFrame.t) :
  0 <= GoawayFrame.Version frame < 2 ^ 15 ->
  0 <= GoawayFrame.LastGoodStreamID frame < 2 ^ 31 ->
  0 <= GoawayFrame.StatusCode frame < 2 ^ 32 ->
  (r ← GoawayFrame.Bytes frame; GoawayFrame.Parse (GoawayFrame.Make 0 0 0) r.1)
  = Ok (frame, None).
Proof.
  intros Hv Hi Hc. destruct frame as [v i c]. simpl in *.
  pose proof (version_value v Hv) as HV. pose proof (be31_value i Hi) as HI.
  pose proof (be32_value c Hc) as HS.
  pose proof (control_byte_bit (to_byte (Z.shiftr v 8))) as HC.
  pose proof (top_bit_clear (to_byte (Z.shiftr i 24))) as HT.
  set (b0 := Z.lor 128 _) in *. set (b1 := to_byte v) in *.
  set (i3 := Z.land (to_byte (Z.shiftr i 24)) 127) in *.
  set (i2 := to_byte (Z.shiftr i 16)) in *.
  set (i1 := to_byte (Z.shiftr i 8)) in *. set (i0 := to_byte i) in *.
  set (c3 := to_byte (Z.shiftr c 24)) in *. set (c2 := to_byte (Z.shiftr c 16)) in *.
  set (c1 := to_byte (Z.shiftr c 8)) in *. set (c0 := to_byte c) in *.
  clearbody b0 b1 i3 i2 i1 i0 c3 c2 c1 c0.
  unfold GoawayFrame.Parse, parse_version, type_differs, orM, reject,
    bytesToUint24, bytesToUint32, bytesToUint31.
  repeat first [rewrite HC | rewrite HT | run_closed].
  by rewrite HV, HI, HS.
Qed.

(** C1, for WINDOW_UPDATE: [Bytes] allocates 12 bytes and stores 16, so it
    panics at index 12 for every frame and there is nothing to parse; and
    [Parse] keeps the low 7 bits of the delta only: the 16 bytes that carry
    stream id 1 and delta 65536 with type code 9 decode to delta 0. *)
Theorem WindowUpdateFrame_Bytes_panics_Parse_masks_delta :
  (forall frame : WindowUpdateFrame.t,
     WindowUpdateFrame.Bytes frame = Panic (IndexOutOfRange 12 12)) /\
  WindowUpdateFrame.Parse (WindowUpdateFrame.Make 0 0 0)
    (of_list [0x80; 3; 0; 9; 0; 0; 0; 8; 0; 0; 0; 1; 0; 1; 0; 0])
  = Ok ({| WindowUpdateFrame.Version := 3; WindowUpdateFrame.StreamID := 1;
           WindowUpdateFrame.DeltaWindowSize := 0 |}, None).
Proof. split; [intros frame |]; reflexivity. Qed.

(** C3: [RstStreamFrame.Parse] asks for a total length of 8.  The well-formed
    frame of 16 bytes (stream id 1, status 1) is rejected with a length error,
    and no input at all is accepted: one of 8 bytes that passes the first
    checks is indexed at 8. *)
Theorem RstStreamFrame_Parse_rejects_well_formed :
  RstStreamFrame.Parse (RstStreamFrame.Make 0 0 0 0)
    (of_list [0x80; 3; 0; 3; 0; 0; 0; 8; 0; 0; 0; 1; 0; 0; 0; 1])
  = Ok (RstStreamFrame.Make 0 0 0 0, Some (IncorrectDataLength 16 8)) /\
  (forall (frame : RstStreamFrame.t) (data : slice),
     match RstStreamFrame.Parse frame data with
     | Ok (_, None) => False
     | _ => True
     end).
Proof.
  split; [reflexivity |]. intros frame data.
  unfold RstStreamFrame.Parse.
  destruct (Z.eqb_spec (len data) 8) as [Hlen | Hlen]; simpl; [| done].
  assert (H8 : index data 8 = Panic (IndexOutOfRange 8 8)).
  { unfold index. by rewrite Hlen. }
  unfold reject. repeat (first [rewrite H8; simpl | parse_step]); done.
Qed.

(** C7: the control-bit test of [DataFrame.Parse] compares [data[0]&0x80]
    with 1, so it never fires: 8 bytes whose first byte is 0x80 are decoded as
    a DATA frame, and no input is rejected with an invalid-field error. *)
Theorem DataFrame_Parse_accepts_control_bit :
  DataFrame.Parse DataFrame.new (of_list [0x80; 0; 0; 0; 0; 0; 0; 0])
  = Ok ({| DataFrame.StreamID := 0; DataFrame.Flags := 0; DataFrame.Data := [] |}, None) /\
  (forall (frame : DataFrame.t) (data : slice),
     match DataFrame.Parse frame data with
     | Ok (_, Some (InvalidField _ _ _)) => False
     | _ => True
     end).
Proof.
  split; [reflexivity |]. intros frame data.
  unfold DataFrame.Parse, reject.
  repeat (first [rewrite land_0x80_not_1; simpl | parse_step]); done.
Qed.

(** [SettingsFrame.Parse] slices [data[8:12]] before it looks at the length:
    a slice whose capacity is below 12 makes it panic. *)
Lemma SettingsFrame_Parse_small_capacity (frame : SettingsFrame.t) (data : slice) :
  cap data < 12 ->
  SettingsFrame.Parse frame data = Panic (SliceBoundsOutOfRange 8 12 (cap data)).
Proof.
  intros Hcap. unfold SettingsFrame.Parse, reslice.
  replace (12 <=? cap data) with false by (symmetry; apply Z.leb_gt; lia). done.
Qed.

(** [WindowUpdateFrame.Parse] lets 12 bytes pass its length check and indexes
    [data[12]]: on 12 bytes it rejects the control bit or the type, or it
    panics; it returns no length error. *)
Lemma WindowUpdateFrame_Parse_12_bytes (frame : WindowUpdateFrame.t) (data : slice) :
  len data = 12 ->
  match WindowUpdateFrame.Parse frame data with
  | Ok (_, Some (InvalidField _ _ _)) => True
  | Ok _ => False
  | Panic _ => True
  end.
Proof.
  intros Hlen. unfold WindowUpdateFrame.Parse. rewrite Hlen. simpl.
  assert (H12 : index data 12 = Panic (IndexOutOfRange 12 12)).
  { unfold index. by rewrite Hlen. }
  unfold reject. repeat (first [rewrite H12; simpl | parse_step]); done.
Qed.

(** C6, at the inputs where the code departs from it: [SettingsFrame.Parse]
    on 3 bytes panics on the slice expression [data[8:12]], and
    [WindowUpdateFrame.Parse] on 12 bytes with the control bit and type 9
    panics on the index expression [data[12]]; neither returns an error. *)
Theorem Parse_short_input_panics :
  SettingsFrame.Parse (SettingsFrame.Make 0 0 []) (of_list [0x80; 3; 0])
  = Panic (SliceBoundsOutOfRange 8 12 3) /\
  WindowUpdateFrame.Parse (WindowUpdateFrame.Make 0 0 0)
    (of_list [0x80; 3; 0; 9; 0; 0; 0; 8; 0; 0; 0; 1])
  = Panic (IndexOutOfRange 12 12).
Proof. split; reflexivity. Qed.

(** ** Ping ids *)

(** [NewConn] gives each role the parity of its ping ids. *)
Lemma NewConn_ping_parity (W CW L NL : Z) (conn : string) (is_server : bool)
  (subversion : Z) :
  let c := NewConn W CW L NL conn is_server subversion in
  server c = is_server /\
  ping_parity_matches_role (server c) (nextPingID c) = true.
Proof. by destruct is_server. Qed.

(** C8, at the constructor that departs from it: [NewClientConn] makes a
    client connection (no server, odd stream ids) and sets the next ping id
    to 2, which is even. *)
Theorem NewClientConn_next_ping_id_even (CW L NL : Z) (addr : string) :
  exists c : connV3,
    NewClientConn CW L NL (Some addr) true 3 = (Some c, None) /\
    v3_server c = false /\
    v3_oddity c = 1 /\
    v3_nextPingID c = 2 /\
    ping_parity_matches_role (v3_server c) (v3_nextPingID c) = false.
Proof. eexists. repeat split. Qed.

(** ** The loops of [CredentialFrame.Parse] end within their turns *)

Lemma uint32_at_nonneg (data : slice) (offset n : Z) :
  CredentialFrame.uint32_at data offset = Ok n -> 0 <= n.
Proof.
  unfold CredentialFrame.uint32_at, bytesToUint32. intros H.
  repeat (match type of H with
          | context [mbind _ ?m] => destruct m; simpl in H; [| discriminate]
          end).
  injection H as <-. unfold to_uint32. apply Z.mod_pos_bound. lia.
Qed.

(** With as many turns as there are bytes from [offset] to [length], a turn
    more changes nothing: the loop has ended before the turns are used up. *)
Lemma count_certs_turns (turns : nat) (data : slice) (length offset numCerts : Z) :
  length - offset <= Z.of_nat turns ->
  CredentialFrame.count_certs (S turns) data length offset numCerts
  = CredentialFrame.count_certs turns data length offset numCerts.
Proof.
  revert offset numCerts. induction turns as [| turns IH]; intros offset numCerts Hturns.
  - simpl. destruct (Z.ltb_spec offset length); [lia | done].
  - change (CredentialFrame.count_certs (S (S turns)) data length offset numCerts)
      with (if offset <? length then
              n ← CredentialFrame.uint32_at data offset;
              CredentialFrame.count_certs (S turns) data length (offset + (n + 4))
                (numCerts + 1)
            else mret numCerts).
    change (CredentialFrame.count_certs (S turns) data length offset numCerts)
      with (if offset <? length then
              n ← CredentialFrame.uint32_at data offset;
              CredentialFrame.count_certs turns data length (offset + (n + 4))
                (numCerts + 1)
            else mret numCerts).
    destruct (offset <? length); [| done].
    destruct (CredentialFrame.uint32_at data offset) as [n |] eqn:Hn; [| done].
    apply uint32_at_nonneg in Hn. simpl. apply IH. lia.
Qed.

Lemma read_certs_turns (turns : nat) (data : slice) (length offset : Z) :
  length - offset <= Z.of_nat turns ->
  CredentialFrame.read_certs (S turns) data length offset
  = CredentialFrame.read_certs turns data length offset.
Proof.
  revert offset. induction turns as [| turns IH]; intros offset Hturns.
  - simpl. destruct (Z.ltb_spec offset length); [lia | done].
  - change (CredentialFrame.read_certs (S (S turns)) data length offset)
      with (if offset <? length then
              n ← CredentialFrame.uint32_at data offset;
              cert ← reslice data (offset + 4) (offset + 4 + n);
              rest ← CredentialFrame.read_certs (S turns) data length (offset + (n + 4));
              mret (elems cert :: rest)
            else mret []).
    change (CredentialFrame.read_certs (S turns) data length offset)
      with (if offset <? length then
              n ← CredentialFrame.uint32_at data offset;
              cert ← reslice data (offset + 4) (offset + 4 + n);
              rest ← CredentialFrame.read_certs turns data length (offset + (n + 4));
              mret (elems cert :: rest)
            else mret []).
    destruct (offset <? length); [| done].
    destruct (CredentialFrame.uint32_at data offset) as [n |] eqn:Hn; [| done].
    apply uint32_at_nonneg in Hn. cbv [mbind result_bind]. cbv beta iota.
    destruct (reslice data (offset + 4) (offset + 4 + n)); [| done].
    rewrite IH by lia. done.
Qed.

(** ** [WriteHeader] prints the status in decimal *)

Example WriteHeader_status_200 :
  stream.headers (stream.WriteHeader (demo_stream 65536 false) StatusOK)
  = <[":version" := "HTTP/1.1"]> (<[":status" := "200"]> ∅).
Proof. reflexivity. Qed.

(** * Further properties of the code *)

(** ** The queue *)

(** X1: for [n >= 0], [Pop(n)] returns the first [n] bytes of the queue (all
    of them when there are fewer) and leaves the others, in order. *)
Theorem queue_Pop_splits (q : queue.t) (n : Z) :
  0 <= n ->
  exists (out : option (list byte)) (q' : queue.t),
    queue.Pop q n = Ok (out, q') /\
    default [] out = take (Z.to_nat n) (queue.contents q) /\
    queue.contents q' = drop (Z.to_nat n) (queue.contents q).
Proof.
  intros Hn. unfold queue.Pop.
  destruct (Z.ltb_spec n (Z.of_nat (length (queue.contents q)))) as [Hlt | Hge].
  - rewrite bytes_to_ok, bytes_from_ok by lia. simpl. by eexists _, _.
  - simpl. eexists _, _. split; [reflexivity |]. split.
    + rewrite take_ge by lia. done.
    + rewrite drop_ge by lia. done.
Qed.

Lemma queue_Pop_splits_witness :
  exists (out : option (list byte)) (q' : queue.t),
    queue.Pop {| queue.data := Some [1; 2; 3] |} 2 = Ok (out, q') /\
    default [] out = [1; 2] /\
    queue.contents q' = [3].
Proof. apply (queue_Pop_splits {| queue.data := Some [1; 2; 3] |} 2). lia. Defined.

(** X2: a negative [n] makes [Pop] panic on the slice expression [q.data[:n]],
    whatever the queue holds. *)
Theorem queue_Pop_negative_panics (q : queue.t) (n : Z) :
  n < 0 ->
  queue.Pop q n
  = Panic (SliceBoundsOutOfRange 0 n (Z.of_nat (length (queue.contents q)))).
Proof.
  intros Hn. unfold queue.Pop.
  replace (n <? Z.of_nat (length (queue.contents q))) with true
    by (symmetry; apply Z.ltb_lt; lia).
  unfold bytes_to. replace (0 <=? n) with false by (symmetry; apply Z.leb_gt; lia).
  done.
Qed.

Lemma queue_Pop_negative_panics_witness :
  queue.Pop queue.new (-1) = Panic (SliceBoundsOutOfRange 0 (-1) 0).
Proof. apply (queue_Pop_negative_panics queue.new (-1)). lia. Defined.

(** X3: the queue is first in, first out: after two pushes, a [Pop] that asks
    for all the bytes returns the old contents followed by the first and the
    second push, and leaves the queue empty. *)
Theorem queue_Push_Push_Pop_fifo (q : queue.t) (d1 d2 : list byte) (n : Z) :
  Z.of_nat (length (queue.contents q ++ d1 ++ d2)) <= n ->
  queue.Pop (queue.Push (queue.Push q d1) d2) n
  = Ok (Some (queue.contents q ++ d1 ++ d2), queue.new) /\
  queue.Empty queue.new = true.
Proof.
  intros Hn. split; [| reflexivity]. unfold queue.Pop.
  rewrite !queue_contents_Push, <- app_assoc.
  replace (n <? _) with false by (symmetry; apply Z.ltb_ge; lia).
  simpl. unfold queue.Push, queue.contents.
  destruct (queue.data q); simpl; by rewrite <- ?app_assoc.
Qed.

Lemma queue_Push_Push_Pop_fifo_witness :
  queue.Pop (queue.Push (queue.Push queue.new [1; 2]) [3]) 10
  = Ok (Some [1; 2; 3], queue.new).
Proof.
  apply (queue_Push_Push_Pop_fifo queue.new [1; 2] [3] 10). simpl. lia.
Defined.

(** ** [WriteHeader] and [Write] *)

(** X4: the header is written once: a second call of [WriteHeader], with
    whatever code, leaves the stream as the first call left it, so no second
    SYN_REPLY is sent and the status is not changed. *)
Theorem WriteHeader_twice (s : stream.t) (code1 code2 : Z) :
  stream.WriteHeader (stream.WriteHeader s code1) code2 = stream.WriteHeader s code1.
Proof. apply WriteHeader_written, WriteHeader_wroteHeader. Qed.

Lemma Write_nil (s : stream.t) :
  stream.stop s = false ->
  stream.Write s [] = Ok (stream.WriteHeader s StatusOK, (0, None)).
Proof. intros Hstop. unfold stream.Write. by rewrite Hstop, Write_header_step. Qed.

Lemma data_sent_WriteHeader (s : stream.t) (code : Z) :
  data_sent (stream.output (stream.WriteHeader s code)) = data_sent (stream.output s).
Proof.
  unfold stream.WriteHeader. destruct (stream.wroteHeader s); [done |]. simpl.
  unfold data_sent. rewrite flat_map_app. simpl. by rewrite app_nil_r.
Qed.

Lemma data_sent_snoc_data (frames : list Frame) (f : DataFrame.t) :
  data_sent (frames ++ [FrameData f]) = data_sent frames ++ DataFrame.Data f.
Proof. unfold data_sent. rewrite flat_map_app. simpl. by rewrite app_nil_r. Qed.

(** X5: [Write] of no bytes on a stream that is not stopped writes the header
    if it was not written and nothing else: it returns 0 and no error, sends
    no DATA frame and leaves the window and the queue as they are. *)
Theorem Write_empty_writes_header_only (s : stream.t) :
  stream.stop s = false ->
  stream.Write s [] = Ok (stream.WriteHeader s StatusOK, (0, None)) /\
  data_sent (stream.output (stream.WriteHeader s StatusOK)) = data_sent (stream.output s) /\
  stream.transferWindow (stream.WriteHeader s StatusOK) = stream.transferWindow s /\
  stream.queuedData (stream.WriteHeader s StatusOK) = stream.queuedData s.
Proof.
  intros Hstop. split; [by apply Write_nil |]. split; [| split].
  - apply data_sent_WriteHeader.
  - apply WriteHeader_transferWindow.
  - apply WriteHeader_queuedData.
Qed.

Lemma Write_empty_writes_header_only_witness :
  stream.Write (demo_stream 65536 false) []
  = Ok (stream.WriteHeader (demo_stream 65536 false) StatusOK, (0, None)).
Proof. apply (Write_empty_writes_header_only (demo_stream 65536 false)). reflexivity. Defined.

(** One call of [Write] on an orderly stream. *)
Lemma Write_step (s : stream.t) (data : list byte) :
  orderly s ->
  stream.stop s = false ->
  exists (s' : stream.t) (n : Z),
    stream.Write s data = Ok (s', (n, None)) /\
    0 <= n <= stream.transferWindow s /\
    stream.transferWindow s' = stream.transferWindow s - n /\
    Z.of_nat (length (data_sent (stream.output s')))
    = Z.of_nat (length (data_sent (stream.output s))) + n /\
    data_sent (stream.output s') ++ pending s'
    = data_sent (stream.output s) ++ pending s ++ data /\
    orderly s'.
Proof.
  intros [[[q Hq] Hw] Hord] Hstop.
  assert (Hp : pending s = queue.contents q) by (unfold pending; by rewrite Hq).
  destruct data as [| b data].
  { exists (stream.WriteHeader s StatusOK), 0.
    pose proof (Write_nil s Hstop) as HW.
    pose proof (data_sent_WriteHeader s StatusOK) as Hsent.
    pose proof (WriteHeader_transferWindow s StatusOK) as Hwin.
    pose proof (WriteHeader_queuedData s StatusOK) as Hqueue.
    split; [exact HW |]. split; [lia |]. split; [rewrite Hwin; lia |].
    split; [rewrite Hsent; lia |].
    assert (Hp' : pending (stream.WriteHeader s StatusOK) = pending s)
      by (unfold pending; by rewrite Hqueue).
    split; [by rewrite Hsent, Hp', app_nil_r |].
    unfold orderly, running. rewrite Hp', Hwin, Hqueue, Hq.
    split; [split; [by eexists | done] | done]. }
  pose proof (Write_running s q (b :: data) Hstop) as HW. cbv zeta in HW.
  rewrite HW by (done || lia). clear HW.
  set (w := stream.transferWindow s) in *.
  set (n := Z.of_nat (length (b :: data))).
  assert (Hn : 0 < n) by (subst n; simpl; lia).
  eexists _, _. split; [reflexivity |]. simpl.
  split; [lia |]. split; [lia |].
  rewrite data_sent_snoc_data, data_sent_WriteHeader, Hp. rewrite Hp in Hord. simpl.
  split; [rewrite length_app, length_take; simpl; subst n; simpl; lia |].
  unfold orderly, running, pending. simpl.
  destruct (Z.ltb_spec w n) as [Hlt | Hge].
  - rewrite queue_contents_Push.
    replace (Z.min n w) with w by lia. rewrite Z.sub_diag.
    split; [| split; [split; [by eexists | lia] | done]].
    destruct (decide (queue.contents q = [])) as [Hempty | Hfull].
    + rewrite Hempty. simpl. by rewrite <- app_assoc, take_drop.
    + rewrite (Hord Hfull). simpl. by rewrite app_nil_r.
  - rewrite take_ge by lia.
    destruct (decide (queue.contents q = [])) as [Hempty | Hfull].
    + rewrite Hempty. simpl.
      split; [by rewrite app_nil_r | split; [split; [by eexists | lia] | done]].
    + specialize (Hord Hfull). lia.
Qed.

(** X6: [Write] on an orderly stream that is not stopped loses no byte and
    keeps the order: it returns a count [n] between 0 and the window and no
    error, takes [n] off the window, and the bytes sent in DATA frames
    followed by the bytes in the queue are afterwards what they were before
    followed by [data]; the stream stays orderly. *)
Theorem Write_keeps_bytes_in_order (s : stream.t) (data : list byte) :
  orderly s ->
  stream.stop s = false ->
  exists (s' : stream.t) (n : Z),
    stream.Write s data = Ok (s', (n, None)) /\
    0 <= n <= stream.transferWindow s /\
    stream.transferWindow s' = stream.transferWindow s - n /\
    Z.of_nat (length (data_sent (stream.output s')))
    = Z.of_nat (length (data_sent (stream.output s))) + n /\
    data_sent (stream.output s') ++ pending s'
    = data_sent (stream.output s) ++ pending s ++ data /\
    orderly s'.
Proof. apply Write_step. Qed.

Lemma Write_keeps_bytes_in_order_witness :
  exists (s' : stream.t) (n : Z),
    stream.Write (demo_stream 4 false) [1; 2; 3; 4; 5; 6] = Ok (s', (n, None)) /\
    0 <= n <= 4 /\
    stream.transferWindow s' = 4 - n /\
    Z.of_nat (length (data_sent (stream.output s'))) = 0 + n /\
    data_sent (stream.output s') ++ pending s' = [1; 2; 3; 4; 5; 6] /\
    orderly s'.
Proof.
  apply (Write_keeps_bytes_in_order (demo_stream 4 false) [1; 2; 3; 4; 5; 6]).
  - split; [split; [by eexists | simpl; lia] | done].
  - reflexivity.
Defined.

(** ** [receiveFrame] *)

(** [Write] as [receiveFrame] calls it: the bytes fit the window. *)
Lemma Write_within_window (s : stream.t) (q : queue.t) (d : list byte) :
  stream.stop s = false ->
  d <> [] ->
  stream.queuedData s = Some q ->
  Z.of_nat (length d) <= stream.transferWindow s < 2 ^ 63 ->
  stream.Write s d
  = Ok (stream.send
          (stream.set_transferWindow (stream.WriteHeader s StatusOK)
             (stream.transferWindow s - Z.of_nat (length d)))
          (FrameData {| DataFrame.StreamID := stream.streamID s; DataFrame.Flags := 0;
                        DataFrame.Data := d |}),
        (Z.of_nat (length d), None)).
Proof.
  intros Hstop Hd Hq Hw.
  pose proof (Write_running s q d Hstop Hd) as HW. cbv zeta in HW.
  rewrite HW by (done || lia). clear HW.
  replace (stream.transferWindow s <? Z.of_nat (length d)) with false
    by (symmetry; apply Z.ltb_ge; lia).
  rewrite set_queuedData_same by (by rewrite WriteHeader_queuedData).
  rewrite take_ge by lia.
  replace (Z.min (Z.of_nat (length d)) (stream.transferWindow s))
    with (Z.of_nat (length d)) by lia.
  done.
Qed.

(** One WINDOW_UPDATE on a running stream. *)
Lemma receiveFrame_WindowUpdate_step (FCE : Z) (s : stream.t)
  (f : WindowUpdateFrame.t) :
  running s ->
  stream.stop s = false ->
  0 <= WindowUpdateFrame.DeltaWindowSize f < 2 ^ 32 ->
  exists s' : stream.t,
    stream.receiveFrame FCE s (FrameWindowUpdate f) = Ok s' /\
    data_sent (stream.output s') ++ pending s'
    = data_sent (stream.output s) ++ pending s /\
    stream.transferWindow s' + Z.of_nat (length (data_sent (stream.output s')))
    = stream.transferWindow s + Z.of_nat (length (data_sent (stream.output s)))
      + (if 2 ^ 31 <? WindowUpdateFrame.DeltaWindowSize f + stream.transferWindow s
         then 0 else WindowUpdateFrame.DeltaWindowSize f) /\
    running s' /\
    (WindowUpdateFrame.DeltaWindowSize f + stream.transferWindow s <= 2 ^ 31 ->
     orderly s').
Proof.
  intros [[q Hq] Hw] Hstop Hd.
  assert (Hp : pending s = queue.contents q) by (unfold pending; by rewrite Hq).
  rewrite Hp in *. unfold stream.receiveFrame.
  rewrite to_int64_id by lia. change (2 ^ 31) with 2147483648 in *.
  destruct (Z.ltb_spec 2147483648
              (WindowUpdateFrame.DeltaWindowSize f + stream.transferWindow s)) as [Hgt | Hle].
  { eexists. split; [reflexivity |]. simpl.
    unfold data_sent at 1 3. rewrite flat_map_app. simpl. rewrite app_nil_r.
    fold (data_sent (stream.output s)).
    unfold running, pending. simpl. rewrite Hq. simpl.
    split; [done |]. split; [lia |]. split; [split; [by eexists | lia] | lia]. }
  rewrite to_int64_id by lia. simpl. rewrite Hq. simpl.
  set (w' := stream.transferWindow s + WindowUpdateFrame.DeltaWindowSize f).
  set (Q := queue.contents q) in *.
  unfold queue.Pop. fold Q.
  (* the stream on which [Write] is called, for the queue [q'] left by [Pop] *)
  assert (Hmid : forall (q' : queue.t) (d : list byte),
            d <> [] -> Z.of_nat (length d) <= w' ->
            d ++ queue.contents q' = Q ->
            (queue.contents q' <> [] -> Z.of_nat (length d) = w') ->
            exists s' : stream.t,
              (stream.Write
                 (stream.set_queuedData (stream.set_transferWindow s w') (Some q')) d
               ≫= λ w0 : stream.t * (Z * option error),
                    let (s'0, y) := w0 in
                    let (_, y1) := y in
                    match y1 with
                    | Some err => Panic (PanicError err)
                    | None => mret s'0
                    end) = Ok s' /\
              data_sent (stream.output s') ++ pending s'
              = data_sent (stream.output s) ++ Q /\
              stream.transferWindow s' + Z.of_nat (length (data_sent (stream.output s')))
              = stream.transferWindow s + Z.of_nat (length (data_sent (stream.output s)))
                + WindowUpdateFrame.DeltaWindowSize f /\
              orderly s').
  { intros q' d Hne Hlen HdQ Hrest.
    rewrite (Write_within_window _ q' d) by (done || (simpl; lia)).
    eexists. split; [reflexivity |]. simpl.
    rewrite data_sent_snoc_data, data_sent_WriteHeader. simpl.
    unfold orderly, running, pending. simpl. rewrite WriteHeader_queuedData. simpl.
    split; [by rewrite <- app_assoc, HdQ |].
    split; [rewrite length_app; lia |].
    split; [split; [by eexists | lia] |].
    intros Hq'. specialize (Hrest Hq'). lia. }
  (* the stream when [Write] is not called *)
  assert (Hidle : forall q' : queue.t,
            queue.contents q' = Q -> (Q <> [] -> w' = 0) ->
            exists s' : stream.t,
              mret (stream.set_queuedData (stream.set_transferWindow s w') (Some q'))
              = Ok s' /\
              data_sent (stream.output s') ++ pending s'
              = data_sent (stream.output s) ++ Q /\
              stream.transferWindow s' + Z.of_nat (length (data_sent (stream.output s')))
              = stream.transferWindow s + Z.of_nat (length (data_sent (stream.output s)))
                + WindowUpdateFrame.DeltaWindowSize f /\
              orderly s').
  { intros q' Hq' Hzero. eexists. split; [reflexivity |]. simpl.
    unfold orderly, running, pending. simpl. rewrite Hq'.
    split; [done |]. split; [lia |]. split; [split; [by eexists | lia] | done]. }
  assert (Hdone : forall X : stream.t -> Prop,
            (exists s' : stream.t,
               X s' /\
               data_sent (stream.output s') ++ pending s'
               = data_sent (stream.output s) ++ Q /\
               stream.transferWindow s' + Z.of_nat (length (data_sent (stream.output s')))
               = stream.transferWindow s + Z.of_nat (length (data_sent (stream.output s)))
                 + WindowUpdateFrame.DeltaWindowSize f /\
               orderly s') ->
            exists s' : stream.t,
               X s' /\
               data_sent (stream.output s') ++ pending s'
               = data_sent (stream.output s) ++ Q /\
               stream.transferWindow s' + Z.of_nat (length (data_sent (stream.output s')))
               = stream.transferWindow s + Z.of_nat (length (data_sent (stream.output s)))
                 + WindowUpdateFrame.DeltaWindowSize f /\
               running s' /\
               (WindowUpdateFrame.DeltaWindowSize f + stream.transferWindow s <= 2147483648 ->
                orderly s')).
  { intros X (s' & H1 & H2 & H3 & H4). exists s'.
    split; [exact H1 |]. split; [exact H2 |]. split; [exact H3 |].
    split; [apply H4 | intros _; exact H4]. }
  destruct (Z.ltb_spec w' (Z.of_nat (length Q))) as [Hlt | Hge].
  - assert (HQ : Q <> []) by (intros E; rewrite E in Hlt; simpl in Hlt; lia).
    rewrite bytes_to_ok, bytes_from_ok by lia. simpl.
    destruct (Z.ltb_spec 0 (Z.of_nat (length (take (Z.to_nat w') Q)))) as [Hpos | Hzero].
    + apply (Hdone (fun s' => _ = Ok s')), Hmid.
      * intros E. rewrite E in Hpos. simpl in Hpos. lia.
      * rewrite length_take. lia.
      * apply take_drop.
      * intros _. rewrite length_take. lia.
    + rewrite length_take in Hzero.
      assert (Hw0 : w' = 0) by lia.
      replace (take (Z.to_nat w') Q) with (@nil byte) by (by rewrite Hw0).
      apply (Hdone (fun s' => _ = Ok s')), Hidle; [by rewrite Hw0 | done].
  - simpl. unfold Q, queue.contents in *.
    destruct (queue.data q) as [l |] eqn:Hdata; simpl in *.
    + destruct (Z.ltb_spec 0 (Z.of_nat (length l))) as [Hpos | Hzero].
      * apply (Hdone (fun s' => _ = Ok s')), Hmid;
          [intros E; rewrite E in Hpos; simpl in Hpos; lia | lia
          | by rewrite app_nil_r | done].
      * assert (l = []) as -> by (destruct l; [done | simpl in Hzero; lia]).
        apply (Hdone (fun s' => _ = Ok s')), (Hidle queue.new); done.
    + apply (Hdone (fun s' => _ = Ok s')), (Hidle queue.new); done.
Qed.

(** X7: a WINDOW_UPDATE on a running stream that is not stopped loses no
    byte and keeps the order: the bytes sent in DATA frames followed by the
    bytes in the queue are what they were, and the window and the bytes sent
    grow together by the delta.  When the sum of delta and window is above
    2^31 the update is refused and they do not grow.  When it is accepted the
    stream is orderly afterwards. *)
Theorem receiveFrame_WindowUpdate_keeps_bytes_in_order (FCE : Z) (s : stream.t)
  (f : WindowUpdateFrame.t) :
  running s ->
  stream.stop s = false ->
  0 <= WindowUpdateFrame.DeltaWindowSize f < 2 ^ 32 ->
  exists s' : stream.t,
    stream.receiveFrame FCE s (FrameWindowUpdate f) = Ok s' /\
    data_sent (stream.output s') ++ pending s'
    = data_sent (stream.output s) ++ pending s /\
    stream.transferWindow s' + Z.of_nat (length (data_sent (stream.output s')))
    = stream.transferWindow s + Z.of_nat (length (data_sent (stream.output s)))
      + (if 2 ^ 31 <? WindowUpdateFrame.DeltaWindowSize f + stream.transferWindow s
         then 0 else WindowUpdateFrame.DeltaWindowSize f) /\
    running s' /\
    (WindowUpdateFrame.DeltaWindowSize f + stream.transferWindow s <= 2 ^ 31 ->
     orderly s').
Proof. apply receiveFrame_WindowUpdate_step. Qed.

Lemma receiveFrame_WindowUpdate_keeps_bytes_in_order_witness :
  exists s' : stream.t,
    stream.receiveFrame 7 (queued_stream [5; 6; 7] false)
      (FrameWindowUpdate (WindowUpdateFrame.Make 3 1 2)) = Ok s' /\
    data_sent (stream.output s') ++ pending s' = [5; 6; 7] /\
    stream.transferWindow s' + Z.of_nat (length (data_sent (stream.output s'))) = 2 /\
    running s' /\
    (2 + 0 <= 2 ^ 31 -> orderly s').
Proof.
  apply (receiveFrame_WindowUpdate_keeps_bytes_in_order 7 (queued_stream [5; 6; 7] false)
           (WindowUpdateFrame.Make 3 1 2)).
  - split; [by eexists | simpl; lia].
  - reflexivity.
  - simpl. lia.
Defined.

(** X8: a WINDOW_UPDATE that makes room on a stopped stream with bytes in its
    queue panics: the bytes popped are handed to [Write], which returns the
    cancellation error, and [receiveFrame] panics with that error. *)
Theorem receiveFrame_WindowUpdate_stopped_panics (FCE : Z) (s : stream.t) (q : queue.t)
  (f : WindowUpdateFrame.t) :
  stream.stop s = true ->
  stream.queuedData s = Some q ->
  queue.contents q <> [] ->
  0 <= stream.transferWindow s ->
  0 <= WindowUpdateFrame.DeltaWindowSize f ->
  0 < stream.transferWindow s + WindowUpdateFrame.DeltaWindowSize f <= 2 ^ 31 ->
  stream.receiveFrame FCE s (FrameWindowUpdate f) = Panic (PanicError ErrCancelled).
Proof.
  intros Hstop Hq HQ Hw Hd Hsum. unfold stream.receiveFrame.
  rewrite (Z.add_comm (WindowUpdateFrame.DeltaWindowSize f)).
  rewrite to_int64_id by lia.
  replace (2147483648 <? _) with false by (symmetry; apply Z.ltb_ge; lia).
  simpl. rewrite Hq. simpl. unfold queue.Pop.
  set (w := stream.transferWindow s + WindowUpdateFrame.DeltaWindowSize f) in *.
  set (Q := queue.contents q) in *.
  assert (HlenQ : 0 < Z.of_nat (length Q)).
  { destruct Q; [done | simpl; lia]. }
  destruct (Z.ltb_spec w (Z.of_nat (length Q))) as [Hlt | Hge].
  - rewrite bytes_to_ok, bytes_from_ok by lia. simpl.
    rewrite length_take.
    replace (0 <? Z.of_nat (Z.to_nat w `min` length Q)) with true
      by (symmetry; apply Z.ltb_lt; lia).
    unfold stream.Write. simpl. by rewrite Hstop.
  - simpl. unfold Q, queue.contents in *.
    destruct (queue.data q) as [l |]; simpl in *; [| done].
    replace (0 <? Z.of_nat (length l)) with true by (symmetry; apply Z.ltb_lt; lia).
    unfold stream.Write. simpl. by rewrite Hstop.
Qed.

Lemma receiveFrame_WindowUpdate_stopped_panics_witness :
  stream.receiveFrame 7 (queued_stream [5; 6; 7] true)
    (FrameWindowUpdate (WindowUpdateFrame.Make 3 1 2))
  = Panic (PanicError ErrCancelled).
Proof.
  apply (receiveFrame_WindowUpdate_stopped_panics 7 (queued_stream [5; 6; 7] true)
           {| queue.data := Some [5; 6; 7] |} (WindowUpdateFrame.Make 3 1 2));
    try reflexivity; simpl; (done || lia).
Defined.

(** X9: a WINDOW_UPDATE that would take the window above 2^31 is refused: one
    RST_STREAM with the flow-control status is sent, and the window, the queue
    and the bytes sent are as they were. *)
Theorem receiveFrame_WindowUpdate_overflow_resets (FCE : Z) (s : stream.t)
  (f : WindowUpdateFrame.t) :
  2 ^ 31 < WindowUpdateFrame.DeltaWindowSize f + stream.transferWindow s < 2 ^ 63 ->
  exists s' : stream.t,
    stream.receiveFrame FCE s (FrameWindowUpdate f) = Ok s' /\
    stream.output s'
    = stream.output s
      ++ [FrameRstStream {| RstStreamFrame.Version := to_uint16 (stream.version s);
                            RstStreamFrame.Flags := 0;
                            RstStreamFrame.StreamID := stream.streamID s;
                            RstStreamFrame.StatusCode := FCE |}] /\
    stream.transferWindow s' = stream.transferWindow s /\
    stream.queuedData s' = stream.queuedData s /\
    data_sent (stream.output s') = data_sent (stream.output s).
Proof.
  intros H. rewrite receiveFrame_WindowUpdate_above_2_31 by done.
  eexists. split; [reflexivity |]. simpl. split_and!; try done.
  unfold data_sent. rewrite flat_map_app. simpl. by rewrite app_nil_r.
Qed.

Lemma receiveFrame_WindowUpdate_overflow_resets_witness :
  exists s' : stream.t,
    stream.receiveFrame 7 (demo_stream 65536 false)
      (FrameWindowUpdate (WindowUpdateFrame.Make 3 1 2147483647)) = Ok s' /\
    stream.output s'
    = [FrameRstStream {| RstStreamFrame.Version := 3; RstStreamFrame.Flags := 0;
                         RstStreamFrame.StreamID := 1; RstStreamFrame.StatusCode := 7 |}] /\
    stream.transferWindow s' = 65536 /\
    stream.queuedData s' = Some queue.new /\
    data_sent (stream.output s') = [].
Proof.
  apply (receiveFrame_WindowUpdate_overflow_resets 7 (demo_stream 65536 false)
           (WindowUpdateFrame.Make 3 1 2147483647)).
  simpl. lia.
Defined.

(** X10: whatever frames a running stream receives, in whatever order, if
    [receiveFrame] returns for each of them the queue is still allocated and
    the window still lies between 0 and 2^31. *)
Theorem receive_all_keeps_running (FCE : Z) (frames : list Frame) (s s' : stream.t) :
  running s ->
  deltas_typed frames ->
  stream.receive_all FCE s frames = Ok s' ->
  running s'.
Proof.
  revert s. induction frames as [| frame frames IH]; intros s Hrun Hty H; simpl in H.
  - by injection H as <-.
  - destruct (stream.receiveFrame FCE s frame) as [s1 |] eqn:H1; simpl in H; [| done].
    apply (IH s1); [| | done].
    + eapply receiveFrame_preserves_running; [exact Hrun | | exact H1].
      intros f ->. apply Hty. left.
    + intros f Hf. apply Hty. by right.
Qed.

Lemma receive_all_keeps_running_witness :
  running (stream.set_transferWindow (demo_stream 65536 false) 65546).
Proof.
  apply (receive_all_keeps_running 7
           [FrameWindowUpdate (WindowUpdateFrame.Make 3 1 4);
            FrameWindowUpdate (WindowUpdateFrame.Make 3 1 6)]
           (demo_stream 65536 false)).
  - split; [by eexists | simpl; lia].
  - intros f Hf. apply list_elem_of_In in Hf. simpl in Hf.
    destruct Hf as [Hf | [Hf | []]]; injection Hf as <-; simpl; lia.
  - reflexivity.
Defined.

Lemma receive_all_data (FCE : Z) (fs : list DataFrame.t) (s : stream.t) (body : list byte) :
  stream.requestBody s = Some body ->
  stream.receive_all FCE s (map FrameData fs)
  = Ok (stream.set_requestBody s (Some (body ++ flat_map DataFrame.Data fs))).
Proof.
  revert s body. induction fs as [| f fs IH]; intros s body Hb; simpl.
  - rewrite app_nil_r. destruct s; simpl in *. by rewrite Hb.
  - rewrite Hb. simpl.
    rewrite (IH _ (body ++ DataFrame.Data f)) by done.
    rewrite <- app_assoc. by destruct s.
Qed.

(** X11: the DATA frames that wait in the input channel when [run] starts
    make the body of the request, their payloads one after the other in the
    order of arrival, whatever body the stream held; the handler is handed
    that body with a window of 65536, an empty queue and an empty input
    channel, and nothing has been sent. *)
Theorem run_prepare_collects_body (FCE : Z) (s : stream.t) (fs : list DataFrame.t) :
  exists s0 : stream.t,
    stream.run_prepare FCE (stream.set_input s (map FrameData fs)) = Ok s0 /\
    stream.requestBody s0 = Some (flat_map DataFrame.Data fs) /\
    stream.transferWindow s0 = 65536 /\
    stream.queuedData s0 = Some queue.new /\
    stream.input s0 = [] /\
    stream.output s0 = stream.output s.
Proof.
  unfold stream.run_prepare, stream.processInput. simpl.
  rewrite (receive_all_data FCE fs _ []) by done. simpl.
  eexists. split; [reflexivity |]. done.
Qed.

(** X12: [run] receives the waiting frames before it allocates the queue: on
    a stream whose queue is nil, a first waiting WINDOW_UPDATE that fits the
    bound makes [run] panic with a nil dereference in [Pop], whatever the
    handler. *)
Theorem run_window_update_before_queue_panics (FCE CANCEL : Z) (FIN : byte)
  (handler : stream.t -> result stream.t) (s : stream.t) (f : WindowUpdateFrame.t)
  (rest : list Frame) :
  stream.queuedData s = None ->
  stream.input s = FrameWindowUpdate f :: rest ->
  0 <= WindowUpdateFrame.DeltaWindowSize f + stream.transferWindow s <= 2 ^ 31 ->
  stream.run FCE CANCEL FIN handler s = Panic NilPointerDereference.
Proof.
  intros Hq Hin Hsum.
  unfold stream.run, stream.run_prepare, stream.processInput. simpl.
  rewrite Hin. simpl. rewrite to_int64_id by lia.
  replace (2147483648 <? _) with false by (symmetry; apply Z.ltb_ge; lia).
  simpl. by rewrite Hq.
Qed.

Lemma run_window_update_before_queue_panics_witness :
  stream.run 7 5 1 header_only_handler
    (stream.Make 1 None [FrameWindowUpdate (WindowUpdateFrame.Make 3 1 10)] [] ∅ 0
       false 0 None false 3)
  = Panic NilPointerDereference.
Proof.
  apply (run_window_update_before_queue_panics 7 5 1 header_only_handler
           (stream.Make 1 None [FrameWindowUpdate (WindowUpdateFrame.Make 3 1 10)] [] ∅ 0
              false 0 None false 3)
           (WindowUpdateFrame.Make 3 1 10) []).
  - reflexivity.
  - reflexivity.
  - simpl. lia.
Defined.

(** * Further properties of the codec *)

(** X13: no SYN_STREAM frame survives the round trip: [Bytes] writes the 18
    bytes of the fixed part and no header block, and [Parse] rejects every
    input below 22 bytes with a length error, leaving its receiver as it
    was. *)
Theorem SynStreamFrame_Bytes_then_Parse_rejected (frame receiver : SynStreamFrame.t) :
  (r ← SynStreamFrame.Bytes frame; SynStreamFrame.Parse receiver r.1)
  = Ok (receiver, Some (IncorrectDataLength 18 22)).
Proof. reflexivity. Qed.

(** X14: no RST_STREAM frame can be encoded: [Bytes] allocates 8 bytes and
    stores 16, so it panics at index 8 for every frame, and so does [WriteTo]
    for every writer, which is not written to. *)
Theorem RstStreamFrame_Bytes_WriteTo_panic (frame : RstStreamFrame.t) :
  RstStreamFrame.Bytes frame = Panic (IndexOutOfRange 8 8) /\
  (forall (W : Type) (writer_W : io_Writer W) (writer : W),
     RstStreamFrame.WriteTo frame writer = Panic (IndexOutOfRange 8 8)).
Proof. split; [| intros W writer_W writer]; reflexivity. Qed.

Lemma SettingsFrame_Bytes_nonempty (frame : SettingsFrame.t) (x : Setting.t)
  (l : list Setting.t) :
  SettingsFrame.Settings frame = x :: l ->
  SettingsFrame.Bytes frame = Panic (IndexOutOfRange 12 12).
Proof.
  intros H. unfold SettingsFrame.Bytes. rewrite H.
  set (n := to_uint32 (Z.of_nat (length (x :: l)))).
  set (len8 := to_uint32 (4 + to_uint32 (8 * n))).
  set (c := to_uint32 (8 + len8)).
  clearbody n len8 c. reflexivity.
Qed.

(** X15: a SETTINGS frame that holds a setting cannot be encoded: [Add]
    appends the setting and returns no error, and [Bytes] of the frame then
    panics at index 12, where it stores the first setting into a slice of
    length 12. *)
Theorem SettingsFrame_Add_then_Bytes_panics (frame : SettingsFrame.t) (flags : byte)
  (id value : Z) :
  (SettingsFrame.Add frame flags id value).2 = None /\
  SettingsFrame.Settings (SettingsFrame.Add frame flags id value).1
  = SettingsFrame.Settings frame ++ [Setting.Make flags id value] /\
  SettingsFrame.Bytes (SettingsFrame.Add frame flags id value).1
  = Panic (IndexOutOfRange 12 12).
Proof.
  split; [done |]. split; [done |].
  destruct (SettingsFrame.Settings frame) as [| x l] eqn:E.
  - apply (SettingsFrame_Bytes_nonempty _ (Setting.Make flags id value) []).
    simpl. by rewrite E.
  - apply (SettingsFrame_Bytes_nonempty _ x (l ++ [Setting.Make flags id value])).
    simpl. by rewrite E.
Qed.

(** X16: a SETTINGS frame without settings, with a version below 2^15, does
    survive the round trip. *)
Theorem SettingsFrame_empty_round_trip (version : Z) (flags : byte)
  (receiver : SettingsFrame.t) :
  0 <= version < 2 ^ 15 ->
  (r ← SettingsFrame.Bytes (SettingsFrame.Make version flags []);
   SettingsFrame.Parse receiver r.1)
  = Ok (SettingsFrame.Make version flags [], None).
Proof.
  intros Hv. simpl.
  pose proof (version_value version Hv) as HV.
  pose proof (control_byte_bit (to_byte (Z.shiftr version 8))) as HC.
  set (b0 := Z.lor 128 _) in *. set (b1 := to_byte version) in *.
  clearbody b0 b1.
  unfold SettingsFrame.Parse, parse_version, type_differs, declared_size, orM, reject,
    bytesToUint24, bytesToUint32.
  repeat first [rewrite HC | run_closed].
  by rewrite HV.
Qed.

Lemma SettingsFrame_empty_round_trip_witness :
  (r ← SettingsFrame.Bytes (SettingsFrame.Make 3 1 []);
   SettingsFrame.Parse (SettingsFrame.Make 0 0 []) r.1)
  = Ok (SettingsFrame.Make 3 1 [], None).
Proof.
  apply (SettingsFrame_empty_round_trip 3 1 (SettingsFrame.Make 0 0 [])). lia.
Defined.

(** X17: a SYN_REPLY frame with a version below 2^15 and a stream id below
    2^31 survives the round trip in its version, flags and stream id, and
    loses its header block: [Bytes] writes none and [Parse] returns an empty
    one, whatever block the frame held. *)
Theorem SynReplyFrame_round_trip_drops_headers (frame receiver : SynReplyFrame.t (option Headers.t)) :
  0 <= SynReplyFrame.Version frame < 2 ^ 15 ->
  0 <= SynReplyFrame.StreamID frame < 2 ^ 31 ->
  (r ← SynReplyFrame.Bytes frame; SynReplyFrame.Parse receiver r.1)
  = Ok ({| SynReplyFrame.Version := SynReplyFrame.Version frame;
           SynReplyFrame.Flags := SynReplyFrame.Flags frame;
           SynReplyFrame.StreamID := SynReplyFrame.StreamID frame;
           SynReplyFrame.Headers := Some Headers.new |}, None).
Proof.
  intros Hv Hi. destruct frame as [v fl i h]. simpl in *.
  pose proof (version_value v Hv) as HV. pose proof (be31_value i Hi) as HI.
  pose proof (control_byte_bit (to_byte (Z.shiftr v 8))) as HC.
  pose proof (top_bit_clear (to_byte (Z.shiftr i 24))) as HT.
  set (b0 := Z.lor 128 _) in *. set (b1 := to_byte v) in *.
  set (i3 := Z.land (to_byte (Z.shiftr i 24)) 127) in *.
  set (i2 := to_byte (Z.shiftr i 16)) in *.
  set (i1 := to_byte (Z.shiftr i 8)) in *. set (i0 := to_byte i) in *.
  clearbody b0 b1 i3 i2 i1 i0.
  unfold SynReplyFrame.Parse, parse_version, type_differs, orM, reject, reslice_from,
    bytesToUint31, Headers.Parse.
  repeat first [rewrite HC | rewrite HT | run_closed].
  by rewrite HV, HI.
Qed.

Lemma SynReplyFrame_round_trip_drops_headers_witness :
  (r ← SynReplyFrame.Bytes
         (SynReplyFrame.Make 3 1 5 (Some (Headers.Make [Headers.Header ":status" "200"])));
   SynReplyFrame.Parse (SynReplyFrame.Make 0 0 0 None) r.1)
  = Ok (SynReplyFrame.Make 3 1 5 (Some Headers.new), None).
Proof.
  apply (SynReplyFrame_round_trip_drops_headers
           (SynReplyFrame.Make 3 1 5 (Some (Headers.Make [Headers.Header ":status" "200"])))
           (SynReplyFrame.Make 0 0 0 None)); simpl; lia.
Defined.

(** X18: the same for a HEADERS frame, whose declared length [Parse] also
    checks: version, flags and stream id survive, the header block is lost. *)
Theorem HeadersFrame_round_trip_drops_headers (frame receiver : HeadersFrame.t (option Headers.t)) :
  0 <= HeadersFrame.Version frame < 2 ^ 15 ->
  0 <= HeadersFrame.StreamID frame < 2 ^ 31 ->
  (r ← HeadersFrame.Bytes frame; HeadersFrame.Parse receiver r.1)
  = Ok ({| HeadersFrame.Version := HeadersFrame.Version frame;
           HeadersFrame.Flags := HeadersFrame.Flags frame;
           HeadersFrame.StreamID := HeadersFrame.StreamID frame;
           HeadersFrame.Headers := Some Headers.new |}, None).
Proof.
  intros Hv Hi. destruct frame as [v fl i h]. simpl in *.
  pose proof (version_value v Hv) as HV. pose proof (be31_value i Hi) as HI.
  pose proof (control_byte_bit (to_byte (Z.shiftr v 8))) as HC.
  pose proof (top_bit_clear (to_byte (Z.shiftr i 24))) as HT.
  set (b0 := Z.lor 128 _) in *. set (b1 := to_byte v) in *.
  set (i3 := Z.land (to_byte (Z.shiftr i 24)) 127) in *.
  set (i2 := to_byte (Z.shiftr i 16)) in *.
  set (i1 := to_byte (Z.shiftr i 8)) in *. set (i0 := to_byte i) in *.
  clearbody b0 b1 i3 i2 i1 i0.
  unfold HeadersFrame.Parse, parse_version, type_differs, declared_size, orM, reject,
    reslice_from, bytesToUint24, bytesToUint31, Headers.Parse.
  repeat first [rewrite HC | rewrite HT | run_closed].
  by rewrite HV, HI.
Qed.

Lemma HeadersFrame_round_trip_drops_headers_witness :
  (r ← HeadersFrame.Bytes
         (HeadersFrame.Make 3 0 7 (Some (Headers.Make [Headers.Header "a" "b"])));
   HeadersFrame.Parse (HeadersFrame.Make 0 0 0 None) r.1)
  = Ok (HeadersFrame.Make 3 0 7 (Some Headers.new), None).
Proof.
  apply (HeadersFrame_round_trip_drops_headers
           (HeadersFrame.Make 3 0 7 (Some (Headers.Make [Headers.Header "a" "b"])))
           (HeadersFrame.Make 0 0 0 None)); simpl; lia.
Defined.

(** X19: a PING frame with a version below 2^15 and an id below 2^32 survives
    the round trip, whatever the receiver of [Parse] held; [Bytes] gives 12
    bytes, and [WriteTo] hands a buffer those same bytes. *)
Theorem PingFrame_encodings_parse_back (frame receiver : PingFrame.t)
  (written : list byte) :
  0 <= PingFrame.Version frame < 2 ^ 15 ->
  0 <= PingFrame.PingID frame < 2 ^ 32 ->
  (r ← PingFrame.Bytes frame; PingFrame.Parse receiver r.1) = Ok (frame, None) /\
  exists bytes : slice,
    PingFrame.Bytes frame = Ok (bytes, None) /\
    len bytes = 12 /\
    PingFrame.WriteTo frame written = Ok (written ++ elems bytes, None).
Proof.
  intros Hv Hp. split; [| by eexists].
  destruct frame as [v p]. simpl in *.
  pose proof (version_value v Hv) as HV. pose proof (be32_value p Hp) as HP.
  pose proof (control_byte_bit (to_byte (Z.shiftr v 8))) as HC.
  set (b0 := Z.lor 128 _) in *. set (b1 := to_byte v) in *.
  set (p3 := to_byte (Z.shiftr p 24)) in *. set (p2 := to_byte (Z.shiftr p 16)) in *.
  set (p1 := to_byte (Z.shiftr p 8)) in *. set (p0 := to_byte p) in *.
  clearbody b0 b1 p3 p2 p1 p0.
  unfold PingFrame.Parse, parse_version, type_differs, orM, reject,
    bytesToUint24, bytesToUint32.
  repeat first [rewrite HC | run_closed].
  by rewrite HV, HP.
Qed.

Lemma PingFrame_encodings_parse_back_witness :
  (r ← PingFrame.Bytes (PingFrame.Make 3 0xdeadbeef);
   PingFrame.Parse (PingFrame.Make 0 0) r.1)
  = Ok (PingFrame.Make 3 0xdeadbeef, None).
Proof.
  apply (PingFrame_encodings_parse_back (PingFrame.Make 3 0xdeadbeef) (PingFrame.Make 0 0) []);
    simpl; lia.
Defined.

(** X20: a GOAWAY frame with a version below 2^15, a last good stream id below
    2^31 and a status below 2^32 survives the round trip; [Bytes] gives 16
    bytes, and [WriteTo] hands a buffer those same bytes. *)
Theorem GoawayFrame_encodings_parse_back (frame receiver : GoawayFrame.t)
  (written : list byte) :
  0 <= GoawayFrame.Version frame < 2 ^ 15 ->
  0 <= GoawayFrame.LastGoodStreamID frame < 2 ^ 31 ->
  0 <= GoawayFrame.StatusCode frame < 2 ^ 32 ->
  (r ← GoawayFrame.Bytes frame; GoawayFrame.Parse receiver r.1) = Ok (frame, None) /\
  exists bytes : slice,
    GoawayFrame.Bytes frame = Ok (bytes, None) /\
    len bytes = 16 /\
    GoawayFrame.WriteTo frame written = Ok (written ++ elems bytes, None).
Proof.
  intros Hv Hi Hc. split; [| by eexists].
  destruct frame as [v i c]. simpl in *.
  pose proof (version_value v Hv) as HV. pose proof (be31_value i Hi) as HI.
  pose proof (be32_value c Hc) as HS.
  pose proof (control_byte_bit (to_byte (Z.shiftr v 8))) as HC.
  pose proof (top_bit_clear (to_byte (Z.shiftr i 24))) as HT.
  set (b0 := Z.lor 128 _) in *. set (b1 := to_byte v) in *.
  set (i3 := Z.land (to_byte (Z.shiftr i 24)) 127) in *.
  set (i2 := to_byte (Z.shiftr i 16)) in *.
  set (i1 := to_byte (Z.shiftr i 8)) in *. set (i0 := to_byte i) in *.
  set (c3 := to_byte (Z.shiftr c 24)) in *. set (c2 := to_byte (Z.shiftr c 16)) in *.
  set (c1 := to_byte (Z.shiftr c 8)) in *. set (c0 := to_byte c) in *.
  clearbody b0 b1 i3 i2 i1 i0 c3 c2 c1 c0.
  unfold GoawayFrame.Parse, parse_version, type_differs, orM, reject,
    bytesToUint24, bytesToUint32, bytesToUint31.
  repeat first [rewrite HC | rewrite HT | run_closed].
  by rewrite HV, HI, HS.
Qed.

Lemma GoawayFrame_encodings_parse_back_witness :
  (r ← GoawayFrame.Bytes (GoawayFrame.Make 3 2147483647 1);
   GoawayFrame.Parse (GoawayFrame.Make 0 0 0) r.1)
  = Ok (GoawayFrame.Make 3 2147483647 1, None).
Proof.
  apply (GoawayFrame_encodings_parse_back (GoawayFrame.Make 3 2147483647 1)
           (GoawayFrame.Make 0 0 0) []); simpl; lia.
Defined.

(** X21: [WindowUpdateFrame.Parse] keeps the low 7 bits of the delta: the 16
    bytes that carry a version below 2^15, type code 9, length 8, a stream id
    and a delta below 2^31 are accepted, with any flags, and decode to the
    version, the stream id and the delta modulo 128. *)
Theorem WindowUpdateFrame_Parse_delta_mod_128 (version streamID delta : Z) (flags : byte)
  (receiver : WindowUpdateFrame.t) :
  0 <= version < 2 ^ 15 ->
  0 <= streamID < 2 ^ 31 ->
  0 <= delta < 2 ^ 31 ->
  WindowUpdateFrame.Parse receiver
    (of_list
       [ Z.lor 0x80 (to_byte (Z.shiftr version 8)); to_byte version; 0; 9; flags; 0; 0; 8;
         Z.land (to_byte (Z.shiftr streamID 24)) 0x7f; to_byte (Z.shiftr streamID 16);
         to_byte (Z.shiftr streamID 8); to_byte streamID;
         Z.land (to_byte (Z.shiftr delta 24)) 0x7f; to_byte (Z.shiftr delta 16);
         to_byte (Z.shiftr delta 8); to_byte delta ])
  = Ok ({| WindowUpdateFrame.Version := version;
           WindowUpdateFrame.StreamID := streamID;
           WindowUpdateFrame.DeltaWindowSize := delta `mod` 128 |}, None).
Proof.
  intros Hv Hi Hd.
  pose proof (version_value version Hv) as HV. pose proof (be31_value streamID Hi) as HI.
  pose proof (control_byte_bit (to_byte (Z.shiftr version 8))) as HC.
  pose proof (top_bit_clear (to_byte (Z.shiftr streamID 24))) as HT.
  pose proof (top_bit_clear (to_byte (Z.shiftr delta 24))) as HT'.
  assert (HD : to_uint32 (to_uint32 (to_uint32 (to_uint32
                 (Z.shiftl (Z.land (to_byte (Z.shiftr delta 24)) 0x7f) 24)
               + to_uint32 (Z.shiftl (to_byte (Z.shiftr delta 16)) 16))
               + to_uint32 (Z.shiftl (to_byte (Z.shiftr delta 8)) 8)) + to_byte delta)
               = delta).
  { change 0x7f with (Z.ones 7). rewrite Z.land_ones by lia.
    unfold to_uint32, to_byte.
    rewrite !Z.shiftr_div_pow2, !Z.shiftl_mul_pow2 by lia.
    change (2 ^ 24) with 16777216. change (2 ^ 16) with 65536. change (2 ^ 8) with 256.
    change (2 ^ 7) with 128. change (2 ^ 32) with 4294967296.
    change (2 ^ 31) with 2147483648 in *.
    Z.div_mod_to_equations. lia. }
  set (b0 := Z.lor 128 _) in *. set (b1 := to_byte version) in *.
  set (i3 := Z.land (to_byte (Z.shiftr streamID 24)) 127) in *.
  set (i2 := to_byte (Z.shiftr streamID 16)) in *.
  set (i1 := to_byte (Z.shiftr streamID 8)) in *. set (i0 := to_byte streamID) in *.
  set (d3 := Z.land (to_byte (Z.shiftr delta 24)) 127) in *.
  set (d2 := to_byte (Z.shiftr delta 16)) in *.
  set (d1 := to_byte (Z.shiftr delta 8)) in *. set (d0 := to_byte delta) in *.
  clearbody b0 b1 i3 i2 i1 i0 d3 d2 d1 d0.
  assert (HTT : (Z.lor (Z.shiftr i3 7) (Z.shiftr d3 7) =? 0) = true).
  { apply Z.eqb_eq in HT, HT'. by rewrite HT, HT'. }
  unfold WindowUpdateFrame.Parse, parse_version, type_differs, orM, reject,
    bytesToUint24, bytesToUint32, bytesToUint31.
  repeat first [rewrite HC | rewrite HTT | run_closed].
  rewrite HV, HI, HD. change 127 with (Z.ones 7). rewrite Z.land_ones by lia. done.
Qed.

Lemma WindowUpdateFrame_Parse_delta_mod_128_witness :
  WindowUpdateFrame.Parse (WindowUpdateFrame.Make 0 0 0)
    (of_list [0x80; 3; 0; 9; 0; 0; 0; 8; 0; 0; 0; 1; 0; 1; 0; 0x85])
  = Ok (WindowUpdateFrame.Make 3 1 5, None).
Proof.
  apply (WindowUpdateFrame_Parse_delta_mod_128 3 1 65669 0 (WindowUpdateFrame.Make 0 0 0));
    lia.
Defined.

(** ** Slices with a known beginning *)

Lemma index_lookup (s : slice) (i : Z) (x : byte) :
  0 <= i -> elems s !! Z.to_nat i = Some x -> index s i = Ok x.
Proof.
  intros Hi Hx. unfold index. rewrite Hx.
  apply lookup_lt_Some in Hx. unfold len.
  replace (0 <=? i) with true by (symmetry; apply Z.leb_le; lia).
  replace (i <? Z.of_nat (length (elems s))) with true by (symmetry; apply Z.ltb_lt; lia).
  done.
Qed.

Lemma reslice_within (s : slice) (lo hi : Z) :
  0 <= lo <= hi -> hi <= cap s ->
  reslice s lo hi
  = Ok {| elems := take (Z.to_nat (hi - lo)) (drop (Z.to_nat lo) (backing s));
          spare := drop (Z.to_nat hi) (backing s) |}.
Proof.
  intros [H0 H1] H2. unfold reslice.
  apply Z.leb_le in H0, H1, H2. by rewrite H0, H1, H2.
Qed.

Lemma be16_value (x : Z) :
  0 <= x ->
  to_uint32 (to_uint32 (Z.shiftl (to_byte (Z.shiftr x 8)) 8) + to_byte x) = x `mod` 2 ^ 16.
Proof.
  intros Hx. unfold to_uint32, to_byte.
  rewrite !Z.shiftr_div_pow2, !Z.shiftl_mul_pow2 by lia.
  change (2 ^ 8) with 256. change (2 ^ 16) with 65536. change (2 ^ 32) with 4294967296.
  Z.div_mod_to_equations. lia.
Qed.

(** X22: [DataFrame.Parse] reads the length of the payload from bytes 2 and 3,
    which hold the low 16 bits of the stream id, not from the length field
    that [Bytes] writes.  For a stream id below 2^31 the round trip yields the
    first [id mod 2^16] bytes of the payload, and a length error when the
    payload is shorter than that; it gives the frame back only when the
    payload has [id mod 2^16] bytes. *)
Theorem DataFrame_round_trip_length_from_stream_id (frame receiver : DataFrame.t) :
  0 <= DataFrame.StreamID frame < 2 ^ 31 ->
  let n := DataFrame.StreamID frame `mod` 2 ^ 16 in
  let L := Z.of_nat (length (DataFrame.Data frame)) in
  (b ← DataFrame.Bytes frame; DataFrame.Parse receiver b)
  = if L <? n
    then Ok (receiver, Some (IncorrectDataLength (8 + L) (8 + n)))
    else Ok ({| DataFrame.StreamID := DataFrame.StreamID frame;
                DataFrame.Flags := DataFrame.Flags frame;
                DataFrame.Data := take (Z.to_nat n) (DataFrame.Data frame) |}, None).
Proof.
  intros Hi n L. destruct frame as [i fl data]. simpl in *.
  pose proof (be31_value i Hi) as HI.
  pose proof (be16_value i (proj1 Hi)) as HN. fold n in HN.
  assert (Hn : 0 <= n) by (apply Z.mod_pos_bound; lia).
  set (i3 := Z.land (to_byte (Z.shiftr i 24)) 127) in *.
  set (i2 := to_byte (Z.shiftr i 16)) in *.
  set (i1 := to_byte (Z.shiftr i 8)) in *. set (i0 := to_byte i) in *.
  set (l2 := to_byte (Z.shiftr (Z.of_nat (length data)) 16)).
  set (l1 := to_byte (Z.shiftr (Z.of_nat (length data)) 8)).
  set (l0 := to_byte (Z.of_nat (length data))).
  clearbody i3 i2 i1 i0 l2 l1 l0.
  set (sl := append _ data).
  assert (Hsl : sl = {| elems := [i3; i2; i1; i0; fl; l2; l1; l0] ++ data; spare := [] |}).
  { unfold sl, append. simpl. f_equal.
    apply drop_ge. rewrite length_replicate. lia. }
  clearbody sl. subst sl.
  set (sl := {| elems := _; spare := [] |}).
  assert (Hlen : len sl = 8 + L) by (unfold len; simpl; lia).
  assert (Hcap : cap sl = 8 + L) by (unfold cap; simpl; lia).
  assert (H24 : uint16_2_4 sl = Ok n).
  { unfold uint16_2_4. rewrite reslice_within by lia. simpl.
    unfold bytesToUint16.
    rewrite (index_lookup _ 0 i1), (index_lookup _ 1 i0) by (lia || done). simpl.
    by rewrite HN. }
  assert (H04 : (b ← reslice sl 0 4; bytesToUint31 b) = Ok i).
  { rewrite reslice_within by lia. simpl. unfold bytesToUint31.
    rewrite (index_lookup _ 0 i3), (index_lookup _ 1 i2), (index_lookup _ 2 i1),
      (index_lookup _ 3 i0) by (lia || done). simpl.
    by rewrite HI. }
  unfold DataFrame.Parse, reject. rewrite Hlen.
  replace (8 + L <? 8) with false by (symmetry; apply Z.ltb_ge; lia).
  rewrite H24. simpl.
  replace (8 + L <? 8 + n) with (L <? n)
    by (destruct (Z.ltb_spec L n), (Z.ltb_spec (8 + L) (8 + n)); (done || lia)).
  destruct (Z.ltb_spec L n) as [Hlt | Hge]; [done |].
  rewrite land_0x80_not_1, H04. simpl.
  rewrite (index_lookup sl 4 fl) by (lia || done). simpl.
  rewrite reslice_within by lia. simpl.
  replace (8 + n - 8) with n by lia.
  by rewrite app_nil_r.
Qed.

Lemma DataFrame_round_trip_length_from_stream_id_witness :
  (b ← DataFrame.Bytes (DataFrame.Make 2 0 [10; 20; 30]);
   DataFrame.Parse DataFrame.new b)
  = Ok (DataFrame.Make 2 0 [10; 20], None).
Proof.
  apply (DataFrame_round_trip_length_from_stream_id (DataFrame.Make 2 0 [10; 20; 30])
           DataFrame.new).
  simpl. lia.
Defined.

(** X23: the function [Parse] of the package returns no frame and no error
    for any input: it panics on the index expression [data[0]] when the input
    is empty and with "Unreachable" otherwise. *)
Theorem Parse_always_panics (data : slice) :
  Parse data
  = Panic (if 0 <? len data then ExplicitPanic "Unreachable" else IndexOutOfRange 0 0).
Proof.
  unfold Parse, index, len. destruct (elems data) as [| b l]; [done |].
  simpl length. replace (0 <? Z.of_nat (S (length l))) with true
    by (symmetry; apply Z.ltb_lt; lia).
  done.
Qed.

(** ** [WriteTo] *)

(** X24: [WriteTo] of a DATA frame hands a buffer the bytes that [Bytes]
    returns, the 8 bytes of the header and then the payload. *)
Theorem DataFrame_WriteTo_writes_Bytes (frame : DataFrame.t) (written : list byte) :
  exists bytes : slice,
    DataFrame.Bytes frame = Ok bytes /\
    len bytes = 8 + Z.of_nat (length (DataFrame.Data frame)) /\
    drop 8 (elems bytes) = DataFrame.Data frame /\
    DataFrame.WriteTo frame written = Ok (written ++ elems bytes, None).
Proof.
  destruct frame as [i fl data]. unfold DataFrame.Bytes, DataFrame.WriteTo. simpl.
  eexists. split; [reflexivity |]. simpl.
  split; [unfold len; simpl; lia |]. split; [done |].
  unfold write_then, write_last. simpl. by rewrite <- app_assoc.
Qed.

(** X25: on a writer with room for the header of a DATA frame and not for
    its payload, [WriteTo] writes the 8 bytes of the header and returns the
    error of the second write: the writer holds a header without payload. *)
Theorem DataFrame_WriteTo_short_write (frame : DataFrame.t) (writer : limited) :
  8 <= room writer < Z.of_nat (length (DataFrame.Data frame)) ->
  exists header : list byte,
    length header = 8%nat /\
    (forall bytes : slice, DataFrame.Bytes frame = Ok bytes -> take 8 (elems bytes) = header) /\
    DataFrame.WriteTo frame writer
    = Ok ({| room := room writer - 8; taken := taken writer ++ header |},
          Some (ErrorsNew "short write")).
Proof.
  intros Hroom. destruct frame as [i fl data]. simpl in Hroom.
  unfold DataFrame.Bytes, DataFrame.WriteTo. simpl.
  exists [ Z.land (to_byte (Z.shiftr i 24)) 0x7f; to_byte (Z.shiftr i 16);
           to_byte (Z.shiftr i 8); to_byte i; fl;
           to_byte (Z.shiftr (Z.of_nat (length data)) 16);
           to_byte (Z.shiftr (Z.of_nat (length data)) 8);
           to_byte (Z.of_nat (length data)) ].
  split; [reflexivity |]. split.
  - intros bytes H. injection H as <-. reflexivity.
  - unfold write_then, write_last, writer_Write, limited_Writer. simpl.
    change (Z.of_nat 8) with 8.
    replace (8 <=? room writer) with true by (symmetry; apply Z.leb_le; lia).
    simpl.
    replace (Z.of_nat (length data) <=? room writer - 8) with false
      by (symmetry; apply Z.leb_gt; lia).
    done.
Qed.

Lemma DataFrame_WriteTo_short_write_witness :
  exists header : list byte,
    length header = 8%nat /\
    (forall bytes : slice,
       DataFrame.Bytes (DataFrame.Make 1 0 (replicate 20 7)) = Ok bytes ->
       take 8 (elems bytes) = header) /\
    DataFrame.WriteTo (DataFrame.Make 1 0 (replicate 20 7)) (Limited 10 [])
    = Ok ({| room := 10 - 8; taken := [] ++ header |}, Some (ErrorsNew "short write")).
Proof.
  apply (DataFrame_WriteTo_short_write (DataFrame.Make 1 0 (replicate 20 7)) (Limited 10 [])).
  simpl. lia.
Defined.

Lemma foldl_append_elems (certs : list (list byte)) (out : slice) :
  elems (foldl (fun out cert => append out cert) out certs) = elems out ++ concat certs.
Proof.
  revert out. induction certs as [| cert certs IH]; intros out; simpl.
  - by rewrite app_nil_r.
  - rewrite IH. simpl. by rewrite <- app_assoc.
Qed.

Lemma write_certs_buffer (certs : list (list byte)) (written : list byte) :
  CredentialFrame.write_certs written certs = Ok (written ++ concat certs, None).
Proof.
  revert written. induction certs as [| cert certs IH]; intros written; simpl.
  - by rewrite app_nil_r.
  - unfold write_then. simpl. rewrite IH. by rewrite <- app_assoc.
Qed.

(** X26: [WriteTo] of a CREDENTIAL frame hands a buffer the bytes that
    [Bytes] returns: 14 bytes of header, the proof, and the certificates one
    after the other with no length in front of any of them. *)
Theorem CredentialFrame_WriteTo_writes_Bytes (frame : CredentialFrame.t)
  (written : list byte) :
  exists bytes : slice,
    CredentialFrame.Bytes frame = Ok (bytes, None) /\
    drop 14 (elems bytes)
    = CredentialFrame.Proof frame ++ concat (CredentialFrame.Certificates frame) /\
    CredentialFrame.WriteTo frame written = Ok (written ++ elems bytes, None).
Proof.
  destruct frame as [v sl proof certs].
  unfold CredentialFrame.Bytes, CredentialFrame.WriteTo. simpl.
  eexists. split; [reflexivity |].
  rewrite foldl_append_elems. simpl. split; [done |].
  unfold write_then. simpl. rewrite write_certs_buffer.
  by rewrite <- !app_assoc.
Qed.

(** X27: [WriteTo] of a HEADERS frame does not write what [Bytes] returns:
    it stores the type code 1 where [Bytes] stores 8.  For a version below
    2^15 the 12 bytes it hands a buffer are those of [Bytes] but for byte 3,
    and [HeadersFrame.Parse] rejects them for their type. *)
Theorem HeadersFrame_WriteTo_writes_type_1 (frame receiver : HeadersFrame.t (option Headers.t))
  (written : list byte) :
  0 <= HeadersFrame.Version frame < 2 ^ 15 ->
  exists bytes : slice,
    HeadersFrame.Bytes frame = Ok (bytes, None) /\
    elems bytes !! 3%nat = Some 8 /\
    HeadersFrame.WriteTo frame written = Ok (written ++ <[3%nat := 1]> (elems bytes), None) /\
    HeadersFrame.Parse receiver (of_list (<[3%nat := 1]> (elems bytes)))
    = Ok (receiver, Some (InvalidField "Type" 1 8)).
Proof.
  intros Hv. destruct frame as [v fl i h]. simpl in *.
  eexists. split; [reflexivity |]. simpl. split; [done |].
  split.
  { unfold HeadersFrame.WriteTo, write_then, write_last. simpl. by rewrite app_nil_r. }
  pose proof (control_byte_bit (to_byte (Z.shiftr v 8))) as HC.
  set (b0 := Z.lor 128 _) in *. set (b1 := to_byte v) in *.
  set (i3 := Z.land (to_byte (Z.shiftr i 24)) 127) in *.
  set (i2 := to_byte (Z.shiftr i 16)) in *.
  set (i1 := to_byte (Z.shiftr i 8)) in *. set (i0 := to_byte i) in *.
  clearbody b0 b1 i3 i2 i1 i0.
  unfold HeadersFrame.Parse, parse_version, type_differs, declared_size, uint16_2_4,
    orM, reject, reslice_from, bytesToUint16, bytesToUint24, bytesToUint31, Headers.Parse,
    of_list.
  repeat first [rewrite HC | run_closed].
  done.
Qed.

Lemma HeadersFrame_WriteTo_writes_type_1_witness :
  exists bytes : slice,
    HeadersFrame.Bytes (HeadersFrame.Make 3 0 7 None) = Ok (bytes, None) /\
    elems bytes !! 3%nat = Some 8 /\
    HeadersFrame.WriteTo (HeadersFrame.Make 3 0 7 None) []
    = Ok ([] ++ <[3%nat := 1]> (elems bytes), None) /\
    HeadersFrame.Parse (HeadersFrame.Make 0 0 0 None) (of_list (<[3%nat := 1]> (elems bytes)))
    = Ok (HeadersFrame.Make 0 0 0 None, Some (InvalidField "Type" 1 8)).
Proof.
  apply (HeadersFrame_WriteTo_writes_type_1 (HeadersFrame.Make 3 0 7 None)
           (HeadersFrame.Make 0 0 0 None) []).
  simpl. lia.
Defined.

(** X28: [WriteTo] of a SYN_STREAM and of a SYN_REPLY frame hands a buffer
    the bytes that [Bytes] returns, 18 and 12 of them. *)
Theorem SynFrames_WriteTo_write_Bytes (stream_frame : SynStreamFrame.t)
  (reply_frame : SynReplyFrame.t (option Headers.t)) (written : list byte) :
  (exists bytes : slice,
     SynStreamFrame.Bytes stream_frame = Ok (bytes, None) /\
     len bytes = 18 /\
     SynStreamFrame.WriteTo stream_frame written = Ok (written ++ elems bytes, None)) /\
  (exists bytes : slice,
     SynReplyFrame.Bytes reply_frame = Ok (bytes, None) /\
     len bytes = 12 /\
     SynReplyFrame.WriteTo reply_frame written = Ok (written ++ elems bytes, None)).
Proof.
  split.
  - eexists. split; [reflexivity |]. split; [reflexivity |].
    unfold SynStreamFrame.WriteTo, write_then, write_last. simpl. by rewrite app_nil_r.
  - eexists. split; [reflexivity |]. split; [reflexivity |].
    unfold SynReplyFrame.WriteTo, write_then, write_last. simpl. by rewrite app_nil_r.
Qed.

(** ** [NewClientConn] *)

(** X29: [NewClientConn] returns a connection exactly when the network
    connection and the client are not nil and the version is 3; otherwise it
    returns no connection and an error.  It never returns both or neither. *)
Theorem NewClientConn_connection_or_error (CW L NL : Z) (conn : option string)
  (client : bool) (version : Z) :
  let r := NewClientConn CW L NL conn client version in
  (is_Some r.1 <-> is_Some conn /\ client = true /\ version = 3) /\
  (is_Some r.1 <-> r.2 = None).
Proof.
  unfold NewClientConn, is_Some.
  destruct conn as [addr |], client, (Z.eqb_spec version 3); simpl;
    (split; split; [intros [c Hc] | intros (Hconn & Hclient & Hversion)
                   | intros [c Hc] | intros Herr]);
    try discriminate; try done; try (by destruct Hconn); eauto.
Qed.

(** * A stream under writes and window updates *)

Lemma Write_stop (s s' : stream.t) (data : list byte) (r : Z * option error) :
  stream.Write s data = Ok (s', r) -> stream.stop s' = stream.stop s.
Proof.
  unfold stream.Write. destruct (stream.stop s) eqn:Hstop.
  { intros H. injection H as <- _. done. }
  rewrite Write_header_step.
  assert (Hs0 : stream.stop (stream.WriteHeader s StatusOK) = false)
    by (by rewrite WriteHeader_stop).
  set (s0 := stream.WriteHeader s StatusOK) in *. clearbody s0.
  destruct (Z.of_nat (length data) =? 0).
  { intros H. injection H as <- _. done. }
  destruct (stream.transferWindow s0 <? Z.of_nat (length data)).
  - destruct (bytes_from data (stream.transferWindow s0)); simpl; [| done].
    destruct (deref (stream.queuedData s0)); simpl; [| done].
    destruct (bytes_to data (stream.transferWindow s0)); simpl; [| done].
    intros H. injection H as <- _. done.
  - simpl. intros H. injection H as <- _. done.
Qed.

Lemma receiveFrame_WindowUpdate_stop (FCE : Z) (s s' : stream.t) (f : WindowUpdateFrame.t) :
  stream.receiveFrame FCE s (FrameWindowUpdate f) = Ok s' ->
  stream.stop s' = stream.stop s.
Proof.
  unfold stream.receiveFrame.
  destruct (2147483648 <? _).
  { intros H. injection H as <-. done. }
  destruct (deref _) as [q |]; simpl; [| done].
  destruct (queue.Pop q _) as [[out q'] |]; simpl; [| done].
  destruct out as [d |]; [| intros H; by injection H as <-].
  destruct (0 <? Z.of_nat (length d)); [| intros H; by injection H as <-].
  destruct (stream.Write _ d) as [[s1 [n [e |]]] |] eqn:HW; simpl; try done.
  intros H. injection H as <-. apply Write_stop in HW. by rewrite HW.
Qed.

(** X30: while the handler runs, the stream delivers what it is given, in
    order: from an orderly stream that is not stopped, any sequence of calls
    of [Write] and of WINDOW_UPDATE frames runs without a panic, and the
    bytes sent in DATA frames followed by the bytes in the queue are then
    what they were before followed by all the bytes written, in the order of
    the calls; the stream is orderly again. *)
Theorem play_delivers_writes_in_order (FCE : Z) (evs : list event) (s : stream.t) :
  orderly s ->
  stream.stop s = false ->
  updates_typed evs ->
  exists s' : stream.t,
    play FCE s evs = Ok s' /\
    data_sent (stream.output s') ++ pending s'
    = data_sent (stream.output s) ++ pending s ++ written evs /\
    orderly s' /\
    stream.stop s' = false.
Proof.
  revert s. induction evs as [| ev evs IH]; intros s Hord Hstop Hty.
  { exists s. simpl. by rewrite !app_nil_r. }
  assert (Hty' : updates_typed evs) by (intros f Hf; apply Hty; by right).
  destruct ev as [data | f]; cbn [play play_one written flat_map].
  - destruct (Write_step s data Hord Hstop) as (s1 & n & HW & _ & _ & _ & Hbytes & Hord1).
    rewrite HW. simpl.
    destruct (IH s1 Hord1) as (s' & Hplay & Hbytes' & Hord' & Hstop'); [| done |].
    { apply Write_stop in HW. by rewrite HW. }
    exists s'. split; [done |]. split; [| done].
    rewrite Hbytes', app_assoc, Hbytes. by rewrite <- ?app_assoc.
  - assert (Hd : 0 <= WindowUpdateFrame.DeltaWindowSize f < 2 ^ 32) by (apply Hty; left).
    destruct Hord as [Hrun Hzero].
    destruct (receiveFrame_WindowUpdate_step FCE s f Hrun Hstop Hd)
      as (s1 & HR & Hbytes & _ & Hrun1 & Hacc).
    rewrite HR. simpl.
    assert (Hord1 : orderly s1).
    { destruct (Z.le_gt_cases
                  (WindowUpdateFrame.DeltaWindowSize f + stream.transferWindow s) (2 ^ 31))
        as [Hle | Hgt]; [by apply Hacc |].
      destruct Hrun as [_ Hw].
      rewrite receiveFrame_WindowUpdate_above_2_31 in HR by lia.
      injection HR as <-. split; [done |]. exact Hzero. }
    destruct (IH s1 Hord1) as (s' & Hplay & Hbytes' & Hord' & Hstop'); [| done |].
    { apply receiveFrame_WindowUpdate_stop in HR. by rewrite HR. }
    exists s'. split; [done |]. split; [| done].
    rewrite Hbytes', app_assoc, Hbytes. by rewrite <- ?app_assoc.
Qed.

Lemma play_delivers_writes_in_order_witness :
  exists s' : stream.t,
    play 7 (demo_stream 4 false)
      [WriteCall [1; 2; 3; 4; 5; 6]; WriteCall [7; 8];
       WindowUpdateArrives (WindowUpdateFrame.Make 3 1 3); WriteCall [9]] = Ok s' /\
    data_sent (stream.output s') ++ pending s' = [1; 2; 3; 4; 5; 6; 7; 8; 9] /\
    orderly s' /\
    stream.stop s' = false.
Proof.
  apply (play_delivers_writes_in_order 7
           [WriteCall [1; 2; 3; 4; 5; 6]; WriteCall [7; 8];
            WindowUpdateArrives (WindowUpdateFrame.Make 3 1 3); WriteCall [9]]
           (demo_stream 4 false)).
  - split; [split; [by eexists | simpl; lia] | done].
  - reflexivity.
  - intros f Hf. apply list_elem_of_In in Hf. simpl in Hf.
    destruct Hf as [Hf | [Hf | [Hf | [Hf | []]]]]; try discriminate.
    injection Hf as <-. simpl. lia.
Defined.
